(** * Deepgram API Playground (app.py): a shallow embedding

    The Streamlit script [app.py] collects widget values, builds the keyword
    arguments of [PrerecordedOptions], calls the vendor SDK once through the
    memoised function [prerecorded] and renders fields of the decoded
    response.  The script is embedded here as pure functions:

    - Python values are inductive types ([pyval] for the option values,
      [json] for the decoded response);
    - the widget values of one script run are a record ([widgets]);
    - output to the page, the outbound request and Python exceptions are a
      small writer/error monad ([ui]) over a trace of [event]s;
    - [st.cache_data] is an explicit store threaded through the calls. *)

From Stdlib Require Import Ascii String SpecFloat.
From stdpp Require Import base strings list gmap.

Open Scope string_scope.
Open Scope list_scope.
Set Warnings "-register-all".

(** ** Python values *)

(** A Python [float] is an IEEE 754 binary64 value. *)
Definition float : Type := spec_float.

#[global] Instance float_eq_dec : EqDecision float.
Proof. solve_decision. Defined.

(** [0.8]: the double nearest to 4/5, i.e. [0x1999999999999A * 2^-53]. *)
Definition float_0_8 : float := S754_finite false 7205759403792794 (-53).

(** The values that occur as keyword arguments of [PrerecordedOptions]. *)
Inductive pyval : Type :=
| PNone
| PBool (b : bool)
| PStr (s : string)
| PFloat (x : float)
| PStrs (l : list string).

#[global] Instance pyval_eq_dec : EqDecision pyval.
Proof. solve_decision. Defined.

(** A keyword-argument list / small dict with string keys, in source order. *)
Definition kwargs : Type := list (string * pyval).

Fixpoint dict_get {V : Type} (k : string) (d : list (string * V)) : option V :=
  match d with
  | [] => None
  | (k', v) :: d' => if String.eqb k k' then Some v else dict_get k d'
  end.

(** Truthiness of the values tested by the script. *)
Definition truthy_bool (b : option bool) : bool :=
  match b with Some true => true | _ => false end.

Definition truthy_str (s : option string) : bool :=
  match s with Some (String _ _) => true | _ => false end.

(** [a or b] on strings. *)
Definition str_or (a b : string) : string :=
  match a with "" => b | _ => a end.

(** ** The two tables *)

Inductive model_label : Type :=
| Nova2 | Nova | WhisperCloud | Enhanced | Base.

Definition model_name (m : model_label) : string :=
  match m with
  | Nova2 => "Nova-2"
  | Nova => "Nova"
  | WhisperCloud => "Whisper Cloud"
  | Enhanced => "Enhanced"
  | Base => "Base"
  end.

(** [MODELS[model]] for a label offered by the model select box. *)
Definition MODELS (m : model_label) : string :=
  match m with
  | Nova2 => "nova-2-ea"
  | Nova => "nova"
  | WhisperCloud => "whisper-medium"
  | Enhanced => "enhanced"
  | Base => "base"
  end.

Inductive language_label : Type :=
| AutomaticLanguageDetection | English | French | Hindi.

Definition language_name (l : language_label) : string :=
  match l with
  | AutomaticLanguageDetection => "Automatic Language Detection"
  | English => "English"
  | French => "French"
  | Hindi => "Hindi"
  end.

(** [LANGUAGES[language]] for a label offered by the language select box. *)
Definition LANGUAGES (l : language_label) : option string :=
  match l with
  | AutomaticLanguageDetection => None
  | English => Some "en"
  | French => Some "fr"
  | Hindi => Some "hi"
  end.

(** Insertion order of the [LANGUAGES] dict. *)
Definition all_languages : list language_label :=
  [AutomaticLanguageDetection; English; French; Hindi].

Definition LANGUAGES_keys : list string := map language_name all_languages.
Definition LANGUAGES_values : list (option string) := map LANGUAGES all_languages.

#[global] Instance language_label_eq_dec : EqDecision language_label.
Proof. solve_decision. Defined.

(** ** Widget values of one script run *)

Record widgets : Type := {
  language : language_label;          (* mcol.selectbox("Language") *)
  model : model_label;                (* rcol.selectbox("Model") *)
  detect_topics : bool;
  diarize : bool;
  detect_entities : bool;
  multichannel : bool;
  paragraphs : bool;
  profanity_filter : bool;
  punctuate : bool;
  redact : bool;                      (* st.checkbox("Redaction") *)
  numbers_box : bool;                 (* the three boxes drawn under Redaction *)
  pci_box : bool;
  ssn_box : bool;
  search : bool;                      (* st.checkbox("Search") *)
  search_box : string;                (* st.text_input("Search terms") *)
  smart_format : bool;
  summarize : bool;
  utterances : bool;
  utt_split_box : float               (* st.number_input("Utterance split") *)
}.

Section Script.

Variable w : widgets.

(** Lines 98-102. *)
Definition lang_options : kwargs :=
  [ ( (if bool_decide (language w = AutomaticLanguageDetection)
       then "detect_language" else "language"),
      (if bool_decide (language w = AutomaticLanguageDetection)
       then PBool true
       else match LANGUAGES (language w) with
            | Some code => PStr code
            | None => PNone
            end) ) ].

(** Lines 176-188: the three boxes exist only under a ticked Redaction box. *)
Definition numbers : option bool := if redact w then Some (numbers_box w) else None.
Definition pci : option bool := if redact w then Some (pci_box w) else None.
Definition ssn : option bool := if redact w then Some (ssn_box w) else None.

(** Lines 189-193. *)
Definition redact_options : list (option string) :=
  [ (if truthy_bool pci then Some "pci" else None);
    (if truthy_bool ssn then Some "ssn" else None);
    (if truthy_bool numbers then Some "numbers" else None) ].

(** Lines 195-209. *)
Definition search_terms : string := if search w then search_box w else "".

(** Lines 226-242. *)
Definition utt_split : float := if utterances w then utt_split_box w else float_0_8.

(** [[option for option in redact_options if option]]. *)
Fixpoint keep_truthy (l : list (option string)) : list string :=
  match l with
  | [] => []
  | o :: l' =>
      if truthy_str o
      then match o with Some s => s :: keep_truthy l' | None => keep_truthy l' end
      else keep_truthy l'
  end.

(** Lines 287-302: the keyword arguments of [PrerecordedOptions(...)]. *)
Definition options : kwargs :=
  [ ("model", PStr (MODELS (model w)));
    ("detect_topics", PBool (detect_topics w));
    ("diarize", PBool (diarize w));
    ("detect_entities", PBool (detect_entities w));
    ("multichannel", PBool (multichannel w));
    ("paragraphs", PBool (paragraphs w));
    ("profanity_filter", PBool (profanity_filter w));
    ("punctuate", PBool (punctuate w));
    ("redact", PStrs (keep_truthy redact_options));
    ("smart_format", PBool (smart_format w));
    ("summarize", PBool (summarize w));
    ("search", PStr ("[" +:+ str_or search_terms "" +:+ "]"));
    ("utterances", PBool (utterances w));
    ("utt_split", PFloat utt_split) ].

End Script.

(** ** The audio source and the decoded response *)

(** What [st.file_uploader] returns when a file was chosen: a file object
    with its [name], its [type] and its bytes. *)
Record UploadedFile : Type := {
  file_name : string;
  file_type : string;
  file_data : string
}.

(** The values [st.session_state["audio"]] takes other than [None]. *)
Inductive audio_value : Type :=
| AFile (f : UploadedFile)   (* the uploaded file object *)
| ABytes (b : string)        (* bytes: a recording, or the content of a file *)
| APath (p : string).        (* a [str]: the path of the sample file *)

(** [source = {"buffer": ...}]: the value under [buffer], [None] when nothing
    was uploaded or recorded. *)
Record source : Type := { buffer : option audio_value }.

#[global] Instance UploadedFile_eq_dec : EqDecision UploadedFile.
Proof. solve_decision. Defined.

#[global] Instance audio_value_eq_dec : EqDecision audio_value.
Proof. solve_decision. Defined.

#[global] Instance source_eq_dec : EqDecision source.
Proof. solve_decision. Defined.

(** The result of [response.to_dict()]: a JSON-shaped Python value. *)
Inductive json : Type :=
| JNull
| JBool (b : bool)
| JInt (z : Z)
| JFloat (x : float)
| JStr (s : string)
| JList (l : list json)
| JDict (d : list (string * json)).

Definition truthy (v : json) : bool :=
  match v with
  | JNull => false
  | JBool b => b
  | JInt z => negb (Z.eqb z 0)
  | JFloat (S754_zero _) => false
  | JFloat _ => true
  | JStr "" => false
  | JStr _ => true
  | JList [] => false
  | JList _ => true
  | JDict [] => false
  | JDict _ => true
  end.

Definition type_name (v : json) : string :=
  match v with
  | JNull => "NoneType"
  | JBool _ => "bool"
  | JInt _ => "int"
  | JFloat _ => "float"
  | JStr _ => "str"
  | JList _ => "list"
  | JDict _ => "dict"
  end.

(** ** Exceptions *)

Inductive exn_class : Type :=
| KeyError | IndexError | TypeError | AttributeError | ValueError
| OtherError (name : string).

(** An instance of [Exception], the class the script's [except] clauses name:
    its class and [str(e)]. *)
Record exn : Type := Exn { exn_class_of : exn_class; exn_str : string }.

Definition result (A : Type) : Type := exn + A.

(** [v[k]] for a string literal [k] (message texts of CPython 3.11; the keys
    used by the script are plain identifiers, so [repr(k)] is [k] in single
    quotes). *)
Definition getitem (v : json) (k : string) : result json :=
  match v with
  | JDict d =>
      match dict_get k d with
      | Some x => inr x
      | None => inl (Exn KeyError ("'" +:+ k +:+ "'"))
      end
  | JList _ => inl (Exn TypeError "list indices must be integers or slices, not str")
  | JStr _ => inl (Exn TypeError "string indices must be integers, not 'str'")
  | _ => inl (Exn TypeError ("'" +:+ type_name v +:+ "' object is not subscriptable"))
  end.

(** The first code point of a UTF-8 encoded string. *)
Definition is_continuation (c : ascii) : bool :=
  match c with Ascii _ _ _ _ _ _ b6 b7 => b7 && negb b6 end.

Fixpoint continuation (s : string) : string :=
  match s with
  | String c r => if is_continuation c then String c (continuation r) else ""
  | "" => ""
  end.

(** [v[0]]; a dict decoded from JSON has only string keys. *)
Definition getitem0 (v : json) : result json :=
  match v with
  | JList (x :: _) => inr x
  | JList [] => inl (Exn IndexError "list index out of range")
  | JStr (String c r) => inr (JStr (String c (continuation r)))
  | JStr "" => inl (Exn IndexError "string index out of range")
  | JDict _ => inl (Exn KeyError "0")
  | _ => inl (Exn TypeError ("'" +:+ type_name v +:+ "' object is not subscriptable"))
  end.

(** [v.get(k, None)]. *)
Definition get_or_none (v : json) (k : string) : result json :=
  match v with
  | JDict d => inr (default JNull (dict_get k d))
  | _ => inl (Exn AttributeError
                ("'" +:+ type_name v +:+ "' object has no attribute 'get'"))
  end.

Definition rbind {A B : Type} (r : result A) (k : A -> result B) : result B :=
  match r with
  | inl e => inl e
  | inr a => k a
  end.

(** [x == y] for [y] an entry of [LANGUAGES.values()]. *)
Definition eq_language_value (x : json) (y : option string) : bool :=
  match y, x with
  | None, JNull => true
  | Some s, JStr t => String.eqb t s
  | _, _ => false
  end.

(** [l.index(x)]: position of the first equal entry, if any. *)
Fixpoint index_of (x : json) (l : list (option string)) : option nat :=
  match l with
  | [] => None
  | y :: l' => if eq_language_value x y then Some 0 else S <$> index_of x l'
  end.

(** [str.endswith]: the last [len(suffix)] characters are compared. *)
Definition endswith (s suffix : string) : bool :=
  if Nat.leb (String.length suffix) (String.length s)
  then String.eqb
         (substring (String.length s - String.length suffix) (String.length suffix) s)
         suffix
  else false.

(** ** Page output *)

Inductive container : Type := Page | Tab1 | Tab2 | Tab3.

Inductive event : Type :=
| Request (payload : source) (opts : kwargs)   (* transcribe_file(payload, options) *)
| Tabs (labels : list string)                  (* st.tabs *)
| Write (c : container) (v : json)             (* st.write / tab.write *)
| Error (body : string) (icon : option string) (* st.error *)
| Code (body : string).                        (* st.code *)

(** A computation emits events and either returns or raises. *)
Definition ui (A : Type) : Type := list event * result A.

Definition ret {A : Type} (a : A) : ui A := ([], inr a).
Definition emit (ev : event) : ui unit := ([ev], inr tt).
Definition lift {A : Type} (r : result A) : ui A := ([], r).

Definition bind {A B : Type} (m : ui A) (k : A -> ui B) : ui B :=
  match m with
  | (t, inl e) => (t, inl e)
  | (t, inr a) => let '(t', r) := k a in ((t ++ t')%list, r)
  end.

(** [try: m  except Exception as e: h e]. *)
Definition try_except {A : Type} (m : ui A) (h : exn -> ui A) : ui A :=
  match m with
  | (t, inl e) => let '(t', r) := h e in ((t ++ t')%list, r)
  | (t, inr a) => (t, inr a)
  end.

Notation "'let*' x ':=' m 'in' k" := (bind m (fun x => k))
  (at level 10, x pattern, m at level 100, k at level 200).

Definition trace {A : Type} (m : ui A) : list event := fst m.
Definition outcome {A : Type} (m : ui A) : result A := snd m.

Definition is_request (ev : event) : bool :=
  match ev with Request _ _ => true | _ => false end.

(** Number of outbound requests in a trace. *)
Definition requests (t : list event) : nat := length (filter is_request t).

Definition st_error (e : exn) : ui unit := emit (Error (exn_str e) None).

Definition nl : string := String (ascii_of_nat 10) "".

(** A chain of subscripts [v[a][b]...], evaluated left to right. *)
Inductive step : Type :=
| Key (k : string)   (* [k] *)
| Idx0.              (* [0] *)

Definition subscript1 (v : json) (s : step) : result json :=
  match s with
  | Key k => getitem v k
  | Idx0 => getitem0 v
  end.

Fixpoint subscript (v : json) (p : list step) : result json :=
  match p with
  | [] => inr v
  | s :: p' => rbind (subscript1 v s) (fun x => subscript x p')
  end.

Definition channel0 : list step := [Key "results"; Key "channels"; Idx0].
Definition alternative0 : list step := channel0 ++ [Key "alternatives"; Idx0].
Definition summary_path : list step :=
  alternative0 ++ [Key "summaries"; Idx0; Key "summary"].
Definition paragraphs_path : list step :=
  alternative0 ++ [Key "paragraphs"; Key "transcript"].
Definition transcript_path : list step := alternative0 ++ [Key "transcript"].

(** [response["results"]["channels"][0].get("detected_language", None)]. *)
Definition detected_language_of (response : json) : result json :=
  rbind (subscript response channel0)
        (fun channel => get_or_none channel "detected_language").

(** ** The script's operations *)

Section App.

(** [deepgram.listen.prerecorded.v("1").transcribe_file(payload, options).to_dict()]:
    the vendor SDK either raises or returns the decoded response. *)
Variable transcribe_file : source -> kwargs -> result json.

(** Streamlit's [write] either renders its argument or raises. *)
Variable write_raises : container -> json -> option exn.

(** [repr] of a decoded value and [traceback.format_exc()] for the exception
    being handled. *)
Variable py_repr : json -> string.
Variable format_exc : exn -> string.

(** [format(v)] inside an f-string. *)
Definition py_str (v : json) : string :=
  match v with
  | JStr s => s
  | _ => py_repr v
  end.

Definition st_write (c : container) (v : json) : ui unit :=
  match write_raises c v with
  | Some e => lift (inl e)
  | None => emit (Write c v)
  end.

(** Lines 48-56. *)
Definition transcribe (src : source) (opts : kwargs) : ui json :=
  let payload := {| buffer := buffer src |} in
  let* _ := emit (Request payload opts) in
  lift (transcribe_file payload opts).

(** [list(LANGUAGES.keys())[list(LANGUAGES.values()).index(detected_language)]]. *)
Definition language_of_code (detected_language : json) : result string :=
  match index_of detected_language LANGUAGES_values with
  | None => inl (Exn ValueError (py_repr detected_language +:+ " is not in list"))
  | Some i =>
      match LANGUAGES_keys !! i with
      | Some name => inr name
      | None => inl (Exn IndexError "list index out of range")
      end
  end.

(** Lines 60-62. *)
Definition show_detected_language (detected_language : json) : ui unit :=
  let* name := lift (language_of_code detected_language) in
  st_write Page
    (JStr ("🔠 __Detected language:__ " +:+ py_str detected_language
           +:+ " (" +:+ name +:+ ")")).

(** Lines 59-62. *)
Definition show_language (response : json) : ui unit :=
  let* detected_language := lift (detected_language_of response) in
  if truthy detected_language
  then show_detected_language detected_language
  else ret tt.

(** Lines 68-70, the body of the first [try]. *)
Definition write_summary (response : json) : ui unit :=
  let* v := lift (subscript response summary_path) in
  st_write Tab3 v.

(** Lines 65-74. *)
Definition show_summary (w : widgets) (response : json) : ui unit :=
  if summarize w then
    let* _ := emit (Tabs ["📝Response"; "🗒️Transcript"; "🤏Summary"]) in
    try_except (write_summary response) st_error
  else emit (Tabs ["📝Response"; "🗒️Transcript"]).

(** Lines 75-78. *)
Definition show_response (response : json) : ui unit :=
  try_except (st_write Tab1 response) st_error.

(** Lines 80-85, the body of the last [try]. *)
Definition write_transcript (w : widgets) (response : json) : ui unit :=
  if paragraphs w || smart_format w then
    let* v := lift (subscript response paragraphs_path) in
    st_write Tab2 v
  else
    let* v := lift (subscript response transcript_path) in
    st_write Tab2 v.

(** Lines 79-87. *)
Definition show_transcript (w : widgets) (response : json) : ui unit :=
  try_except (write_transcript w response) st_error.

(** Lines 47-87, the body of [prerecorded(source, options)].  The module
    globals [summarize], [paragraphs] and [smart_format] it reads are the
    widget values [w]. *)
Definition prerecorded (w : widgets) (src : source) (opts : kwargs) : ui unit :=
  let* response := transcribe src opts in
  let* _ := show_language response in
  let* _ := show_summary w response in
  let* _ := show_response response in
  show_transcript w response.

(** *** [@st.cache_data] (line 46)

    The decorator memoises [prerecorded] on the value of its arguments
    [(source, options)].  A call whose arguments are in the store does not run
    the body: the page elements recorded on the first run are replayed.  A run
    that returns is stored; a run that raises is not. *)
Definition cache : Type := list ((source * kwargs) * list event).

Fixpoint cache_lookup (key : source * kwargs) (c : cache) : option (list event) :=
  match c with
  | [] => None
  | (key', replay) :: c' =>
      if decide (key = key') then Some replay else cache_lookup key c'
  end.

Definition is_element (ev : event) : bool := negb (is_request ev).

Definition prerecorded_cached
    (c : cache) (w : widgets) (src : source) (opts : kwargs) : cache * ui unit :=
  match cache_lookup (src, opts) c with
  | Some replay => (c, (replay, inr tt))
  | None =>
      let m := prerecorded w src opts in
      match outcome m with
      | inr _ => (((src, opts), filter is_element (trace m)) :: c, m)
      | inl _ => (c, m)
      end
  end.

(** *** The Transcribe button (lines 321-338) *)

Definition issue_url : string :=
  "https://github.com/SiddhantSadangi/st_deepgram_playground/issues/new".

Definition indent : string := "                ".

Definition timeout_message (e : exn) : string :=
  exn_str e +:+ "  " +:+ nl +:+ indent
  +:+ "Please try after some time, or try with a smaller source if the issue persists.".

Definition error_message (e : exn) : string :=
  "The app has encountered an error:  " +:+ nl +:+ indent
  +:+ "`" +:+ exn_str e +:+ "`  " +:+ nl +:+ indent
  +:+ "Please create an issue [here](" +:+ issue_url +:+ ") " +:+ nl +:+ indent
  +:+ "with the below traceback".

(** The [except Exception as e:] block. *)
Definition report (e : exn) : ui unit :=
  if endswith (exn_str e) "timed out" then
    emit (Error (timeout_message e) (Some "⌚"))
  else
    let* _ := emit (Error (error_message e) (Some "🥺")) in
    emit (Code (format_exc e)).

(** One click on Transcribe. *)
Definition on_click
    (c : cache) (w : widgets) (src : source) (opts : kwargs) : cache * ui unit :=
  let '(c', m) := prerecorded_cached c w src opts in
  (c', try_except m report).

End App.

(** ** Resolving the API key (lines 114-133) *)

Record DeepgramClient : Type := { api_key : string }.

Definition KEY_NAME : string := "DEEPGRAM_API_KEY".

(** [st.secrets] is read from the secrets file when it is first used: the
    read either raises (a [FileNotFoundError] when there is no
    [secrets.toml]) or gives the entries of the file.  Both
    ["DEEPGRAM_API_KEY" in st.secrets] and [st.secrets["DEEPGRAM_API_KEY"]]
    go through that read. *)
Definition secrets_store : Type := result (gmap string string).

(** Lines 124-131: the value of [deepgram_api_key] after line 131, [None]
    when [st.stop()] ended the run, or the exception that ended it. *)
Definition deepgram_api_key
    (text_input : string) (secrets : secrets_store) (environ : gmap string string)
  : list event * result (option string) :=
  if String.eqb text_input "" then
    match secrets with
    | inl e => ([], inl e)
    | inr entries =>
        match entries !! KEY_NAME with
        | Some k => ([], inr (Some k))
        | None =>
            match environ !! KEY_NAME with
            | Some k => ([], inr (Some k))
            | None =>
                ([Error "Please enter your Deepgram API key to continue" None],
                 inr None)
            end
        end
    end
  else ([], inr (Some text_input)).

(** Line 133, reached only when the run was neither stopped nor ended by an
    exception.  [new_client] is the constructor [DeepgramClient(key)] of the
    vendor SDK, which returns a client or raises. *)
Definition deepgram
    (new_client : string -> result DeepgramClient)
    (text_input : string) (secrets : secrets_store) (environ : gmap string string)
  : list event * result (option DeepgramClient) :=
  match deepgram_api_key text_input secrets environ with
  | (t, inl e) => (t, inl e)
  | (t, inr None) => (t, inr None)
  | (t, inr (Some key)) =>
      (t, rbind (new_client key) (fun client => inr (Some client)))
  end.

(** ** The audio source (lines 259-312) *)

(** The three choices of [st.radio("Choose audio source")]. *)
Inductive audio_source : Type :=
| PickSample      (* "Pick a sample file" *)
| RecordAudio     (* "Record audio" *)
| UploadFile.     (* "Upload audio file" *)

#[global] Instance audio_source_eq_dec : EqDecision audio_source.
Proof. solve_decision. Defined.

(** The value of [st.session_state["audio"]]; [None] when nothing was
    uploaded or recorded. *)
Definition audio : Type := option audio_value.

Definition SAMPLE_FILE : string := "assets/sample_file.wav".

(** Lines 269-282. *)
Definition session_audio
    (choice : audio_source) (uploaded : option UploadedFile)
    (recorded : option string) : audio :=
  match choice with
  | UploadFile => match uploaded with Some f => Some (AFile f) | None => None end
  | RecordAudio => match recorded with Some b => Some (ABytes b) | None => None end
  | PickSample => Some (APath SAMPLE_FILE)
  end.

(** Truthiness of the session value: an uploaded file object is truthy,
    bytes and paths are truthy when not empty. *)
Definition audio_truthy (a : audio) : bool :=
  match a with
  | None => false
  | Some (AFile _) => true
  | Some (ABytes b) => truthy_str (Some b)
  | Some (APath p) => truthy_str (Some p)
  end.

(** Lines 274-276: [st.session_state["mimetype"]], assigned in the upload
    branch only. *)
Definition session_mimetype
    (choice : audio_source) (uploaded : option UploadedFile) : option (option string) :=
  match choice with
  | UploadFile =>
      Some (match session_audio UploadFile uploaded None with
            | Some (AFile f) => Some (file_type f)
            | _ => None
            end)
  | _ => None
  end.

(** Lines 284-285: whether [st.audio] draws the player. *)
Definition shows_player (choice : audio_source) (a : audio) : bool :=
  audio_truthy a && negb (bool_decide (choice = RecordAudio)).

(** Lines 305-312: the uploaded or recorded session value itself becomes the
    buffer; otherwise the session value is the argument of
    [open(..., "rb").read()], which takes a path given as [str] or [bytes]
    and raises when the file cannot be read. *)
Definition build_source
    (read_file : string -> result string)
    (choice : audio_source) (a : audio) : result source :=
  if bool_decide (choice = UploadFile) || bool_decide (choice = RecordAudio)
  then inr {| buffer := a |}
  else
    match a with
    | Some (APath p) | Some (ABytes p) =>
        rbind (read_file p) (fun data => inr {| buffer := Some (ABytes data) |})
    | None =>
        inl (Exn TypeError "expected str, bytes or os.PathLike object, not NoneType")
    | Some (AFile _) =>
        inl (Exn TypeError "expected str, bytes or os.PathLike object, not UploadedFile")
    end.

(** Lines 284-312 in their order: the player is drawn first, then the source
    is built.  [audio_raises] tells whether [st.audio] raises for the value
    it is given.  The result is the value shown in the player, if one was
    drawn, and the source or the exception that ended the run. *)
Definition audio_stage
    (audio_raises : audio_value -> option exn)
    (read_file : string -> result string)
    (choice : audio_source) (a : audio) : option audio_value * result source :=
  if shows_player choice a then
    match a with
    | Some v =>
        match audio_raises v with
        | Some e => (None, inl e)
        | None => (Some v, build_source read_file choice a)
        end
    | None => (None, build_source read_file choice a)
    end
  else (None, build_source read_file choice a).

(** ** The Transcribe button (lines 314-320) *)

Record button : Type := { disabled : bool; help : string }.

Definition transcribe_button (key : string) : button :=
  {| disabled := negb (truthy_str (Some key));
     help := if truthy_str (Some key) then "" else "Enter your Deepgram API key" |}.

(** ** A sequence of clicks

    Streamlit reruns the script for every click; the store of
    [st.cache_data] outlives the runs. *)
Record click_input : Type := {
  service : source -> kwargs -> result json;   (* the vendor service at that time *)
  click_widgets : widgets;
  click_source : source;
  click_options : kwargs
}.

Fixpoint session
    (write_raises : container -> json -> option exn)
    (py_repr : json -> string) (format_exc : exn -> string)
    (c : cache) (clicks : list click_input) : cache * list event :=
  match clicks with
  | [] => (c, [])
  | x :: clicks' =>
      let '(c1, m) :=
        on_click (service x) write_raises py_repr format_exc c
          (click_widgets x) (click_source x) (click_options x) in
      let '(c2, t) := session write_raises py_repr format_exc c1 clicks' in
      (c2, trace m ++ t)
  end.

(** ** Vocabulary of the properties *)

#[global] Instance container_eq_dec : EqDecision container.
Proof. solve_decision. Defined.

(** The event writes into the container [c]. *)
Definition writes_to (c : container) (ev : event) : bool :=
  match ev with
  | Write c' _ => bool_decide (c = c')
  | _ => false
  end.

(** What a stage that renders into [c] may put on the page: a write into
    [c], the tab bar, or an [st.error(e)] box. *)
Definition page_event (c : container) (ev : event) : bool :=
  match ev with
  | Write c' _ => bool_decide (c = c')
  | Tabs _ => true
  | Error _ None => true
  | _ => false
  end.

(** The reading of "forwarded verbatim" for the two fields the glossary
    singles out: every entry of [lang_options] is an entry of the options
    object, and the [search] entry is the text of the search box as typed. *)
Definition language_included (w : widgets) (o : kwargs) : Prop :=
  forall k v, In (k, v) (lang_options w) -> dict_get k o = Some v.

Definition search_as_entered (w : widgets) (o : kwargs) : Prop :=
  dict_get "search" o = Some (PStr (search_terms w)).

(** Whether the box that stands for a redaction name is ticked; the three
    boxes are drawn, and can be ticked, only under a ticked Redaction box. *)
Definition ticked (w : widgets) (name : string) : bool :=
  redact w &&
  (if String.eqb name "pci" then pci_box w
   else if String.eqb name "ssn" then ssn_box w
   else if String.eqb name "numbers" then numbers_box w
   else false).

(** The store holds page elements only. *)
Definition cache_ok (c : cache) : Prop :=
  Forall (fun entry => requests (snd entry) = 0) c.

(** What an [except] block of the script may do: show an error box or a
    code block. *)
Definition is_report (ev : event) : bool :=
  match ev with
  | Error _ _ | Code _ => true
  | _ => false
  end.

(** The text [s] occurs in [body]. *)
Definition mentions (s body : string) : Prop :=
  exists pre post, body = pre +:+ s +:+ post.

(** The field the Transcript tab is meant to show for the ticked flags. *)
Definition transcript_field (w : widgets) : list step :=
  if paragraphs w || smart_format w then paragraphs_path else transcript_path.

(** ** Sample data *)

(** A run with French selected and the search terms [hello]. *)
Definition sample_widgets : widgets :=
  {| language := French; model := Nova2;
     detect_topics := true; diarize := true; detect_entities := true;
     multichannel := false; paragraphs := true; profanity_filter := false;
     punctuate := false;
     redact := true; numbers_box := true; pci_box := false; ssn_box := true;
     search := true; search_box := "hello";
     smart_format := true; summarize := true;
     utterances := true; utt_split_box := float_0_8 |}.

(** The same run with the Redaction box cleared. *)
Definition unredacted_widgets : widgets :=
  {| language := French; model := Nova2;
     detect_topics := true; diarize := true; detect_entities := true;
     multichannel := false; paragraphs := true; profanity_filter := false;
     punctuate := false;
     redact := false; numbers_box := true; pci_box := false; ssn_box := true;
     search := true; search_box := "hello";
     smart_format := true; summarize := true;
     utterances := true; utt_split_box := float_0_8 |}.

Definition sample_source : source := {| buffer := Some (ABytes "RIFF") |}.

(** An uploaded file, a player that draws everything, and the exception of
    a player that cannot load its media. *)
Definition sample_upload : UploadedFile :=
  {| file_name := "clip.wav"; file_type := "audio/wav"; file_data := "RIFF" |}.

Definition plays : audio_value -> option exn := fun _ => None.

Definition media_error : exn :=
  Exn (OtherError "MediaFileStorageError") "Error opening 'assets/sample_file.wav'".

(** A response with one channel and one alternative. *)
Definition sample_response (detected_language : json) : json :=
  JDict [("results",
    JDict [("channels",
      JList [JDict [("detected_language", detected_language);
                    ("alternatives",
                     JList [JDict [("transcript", JStr "hi there");
                                   ("paragraphs",
                                    JDict [("transcript", JStr "Hi there.")]);
                                   ("summaries",
                                    JList [JDict [("summary", JStr "greeting")]])]])]])])].

(** A service that answers [r], one that raises [e], a page that renders
    everything. *)
Definition answers (r : json) : source -> kwargs -> result json := fun _ _ => inr r.
Definition refuses (e : exn) : source -> kwargs -> result json := fun _ _ => inl e.
Definition renders : container -> json -> option exn := fun _ _ => None.

Definition sample_repr (v : json) : string :=
  match v with
  | JStr s => "'" +:+ s +:+ "'"
  | _ => "<value>"
  end.

Definition sample_format_exc (e : exn) : string :=
  "Traceback (most recent call last): " +:+ exn_str e.

Definition read_timeout : exn :=
  Exn (OtherError "ReadTimeout") "The read operation timed out".

Definition unauthorized : exn :=
  Exn (OtherError "DeepgramApiError") "Invalid credentials.".

(** A store that already holds the page of an earlier run with the sample
    arguments. *)
Definition sample_cache : cache :=
  [((sample_source, options sample_widgets),
    [Tabs ["📝Response"; "🗒️Transcript"; "🤏Summary"];
     Write Tab2 (JStr "Hi there.")])].

(** The widget values [w] with another choice in the language box. *)
Definition with_language (l : language_label) (w : widgets) : widgets :=
  {| language := l; model := model w;
     detect_topics := detect_topics w; diarize := diarize w;
     detect_entities := detect_entities w; multichannel := multichannel w;
     paragraphs := paragraphs w; profanity_filter := profanity_filter w;
     punctuate := punctuate w;
     redact := redact w; numbers_box := numbers_box w; pci_box := pci_box w;
     ssn_box := ssn_box w;
     search := search w; search_box := search_box w;
     smart_format := smart_format w; summarize := summarize w;
     utterances := utterances w; utt_split_box := utt_split_box w |}.

(** Number of tab bars in a trace. *)
Definition is_tabs (ev : event) : bool :=
  match ev with Tabs _ => true | _ => false end.

Definition tab_bars (t : list event) : nat := length (filter is_tabs t).

(** A response whose first alternative is the dict [alt]. *)
Definition response_with (alt : list (string * json)) : json :=
  JDict [("results",
    JDict [("channels", JList [JDict [("alternatives", JList [JDict alt])]])])].

(** A click with the sample arguments against a service that answers [r]. *)
Definition sample_click (r : json) : click_input :=
  {| service := answers r; click_widgets := sample_widgets;
     click_source := sample_source; click_options := options sample_widgets |}.

(** A click with the sample arguments against a service that raises [e]. *)
Definition failing_click (e : exn) : click_input :=
  {| service := refuses e; click_widgets := sample_widgets;
     click_source := sample_source; click_options := options sample_widgets |}.

(** All clicks carry the arguments [(src, opts)]. *)
Definition same_arguments (src : source) (opts : kwargs) (clicks : list click_input) : Prop :=
  Forall (fun x => click_source x = src /\ click_options x = opts) clicks.

(** * Properties *)

(** ** The options object *)

(** C1, as stated, fails: with French selected and [hello] typed into the
    search box, the options object has neither a [language] nor a
    [detect_language] entry, and its [search] entry is [[hello]] in square
    brackets, not [hello]. *)
Lemma options_not_verbatim :
  ~ language_included sample_widgets (options sample_widgets)
  /\ ~ search_as_entered sample_widgets (options sample_widgets).
Proof.
  split.
  - intros H. specialize (H "language" (PStr "fr")).
    assert (Hin : In ("language", PStr "fr") (lang_options sample_widgets))
      by (left; reflexivity).
    apply H in Hin. vm_compute in Hin. discriminate Hin.
  - unfold search_as_entered. vm_compute. discriminate.
Qed.

(** C1, amended: for every combination of widget values the options object
    carries the API identifier of the selected model, each of the ten
    check-box flags exactly as ticked, the search terms wrapped in square
    brackets (empty terms when Search is not ticked), and the utterance
    split (the number typed when Utterances is ticked, 0.8 otherwise). *)
Theorem options_forward_selections (w : widgets) :
  dict_get "model" (options w) = Some (PStr (MODELS (model w)))
  /\ dict_get "detect_topics" (options w) = Some (PBool (detect_topics w))
  /\ dict_get "diarize" (options w) = Some (PBool (diarize w))
  /\ dict_get "detect_entities" (options w) = Some (PBool (detect_entities w))
  /\ dict_get "multichannel" (options w) = Some (PBool (multichannel w))
  /\ dict_get "paragraphs" (options w) = Some (PBool (paragraphs w))
  /\ dict_get "profanity_filter" (options w) = Some (PBool (profanity_filter w))
  /\ dict_get "punctuate" (options w) = Some (PBool (punctuate w))
  /\ dict_get "smart_format" (options w) = Some (PBool (smart_format w))
  /\ dict_get "summarize" (options w) = Some (PBool (summarize w))
  /\ dict_get "utterances" (options w) = Some (PBool (utterances w))
  /\ dict_get "search" (options w)
     = Some (PStr ("[" +:+ (if search w then search_box w else "") +:+ "]"))
  /\ dict_get "utt_split" (options w)
     = Some (PFloat (if utterances w then utt_split_box w else float_0_8)).
Proof.
  repeat split; try reflexivity.
  cbn. unfold search_terms, str_or.
  destruct (search w); [destruct (search_box w)|]; reflexivity.
Qed.

(** C5: the [redact] entry of the options object is the sub-list of
    [pci], [ssn], [numbers] whose boxes are ticked, and it is the empty list
    when the Redaction box is not ticked. *)
Theorem redact_is_ticked_subset (w : widgets) :
  dict_get "redact" (options w)
  = Some (PStrs (filter (fun name => ticked w name = true) ["pci"; "ssn"; "numbers"]))
  /\ (redact w = false -> dict_get "redact" (options w) = Some (PStrs [])).
Proof.
  split.
  - cbn. unfold redact_options, pci, ssn, numbers, ticked.
    destruct (redact w), (pci_box w), (ssn_box w), (numbers_box w); reflexivity.
  - intros Hr. cbn. unfold redact_options, pci, ssn, numbers. rewrite Hr.
    reflexivity.
Qed.

Lemma redact_is_ticked_subset_witness :
  dict_get "redact" (options unredacted_widgets) = Some (PStrs []).
Proof.
  apply (proj2 (redact_is_ticked_subset unredacted_widgets)). reflexivity.
Defined.

(** ** [str.endswith] *)






(** ** The writer/error monad *)

Section Monad.

Context {A B : Type}.

Lemma trace_bind (m : ui A) (k : A -> ui B) :
  trace (bind m k)
  = (trace m ++ match outcome m with inr a => trace (k a) | inl _ => [] end)%list.
Proof.
  destruct m as [t [e|a]]; cbn; [now rewrite app_nil_r|].
  destruct (k a); reflexivity.
Qed.

Lemma outcome_bind (m : ui A) (k : A -> ui B) :
  outcome (bind m k)
  = match outcome m with inr a => outcome (k a) | inl e => inl e end.
Proof.
  destruct m as [t [e|a]]; cbn; [reflexivity|].
  destruct (k a); reflexivity.
Qed.

Lemma trace_try_except (m : ui A) (h : exn -> ui A) :
  trace (try_except m h)
  = (trace m ++ match outcome m with inl e => trace (h e) | inr _ => [] end)%list.
Proof.
  destruct m as [t [e|a]]; cbn; [|now rewrite app_nil_r].
  destruct (h e); reflexivity.
Qed.

Lemma outcome_try_except (m : ui A) (h : exn -> ui A) :
  outcome (try_except m h)
  = match outcome m with inl e => outcome (h e) | inr a => inr a end.
Proof.
  destruct m as [t [e|a]]; cbn; [|reflexivity].
  destruct (h e); reflexivity.
Qed.

End Monad.

Lemma requests_app (t t' : list event) :
  requests (t ++ t') = requests t + requests t'.
Proof. unfold requests. now rewrite filter_app, length_app. Qed.

Ltac ui_simpl :=
  repeat first
    [ rewrite trace_bind | rewrite outcome_bind
    | rewrite trace_try_except | rewrite outcome_try_except
    | rewrite requests_app ];
  cbn [trace outcome fst snd].

(** ** Stages of [prerecorded] *)

Section Stages.

Variable transcribe_file : source -> kwargs -> result json.
Variable write_raises : container -> json -> option exn.
Variable py_repr : json -> string.

Abbreviation write := (st_write write_raises).
Abbreviation run := (prerecorded transcribe_file write_raises py_repr).

Lemma st_write_cases (c : container) (v : json) :
  (write_raises c v = None /\ write c v = ([Write c v], inr tt))
  \/ (exists e, write_raises c v = Some e /\ write c v = ([], inl e)).
Proof.
  unfold st_write. destruct (write_raises c v) as [e|]; eauto.
Qed.

(** An [except Exception as e: st.error(e)] block always returns. *)
Lemma outcome_guarded (m : ui unit) : outcome (try_except m st_error) = inr tt.
Proof. destruct m as [t [e|[]]]; reflexivity. Qed.

Lemma trace_guarded (m : ui unit) :
  trace (try_except m st_error)
  = (trace m ++ match outcome m with
                | inl e => [Error (exn_str e) None]
                | inr _ => []
                end)%list.
Proof. rewrite trace_try_except. destruct (outcome m); reflexivity. Qed.

Lemma outcome_show_summary w r :
  outcome (show_summary write_raises w r) = inr tt.
Proof.
  unfold show_summary. destruct (summarize w); [|reflexivity].
  rewrite outcome_bind. cbn. apply outcome_guarded.
Qed.

Lemma outcome_show_response r : outcome (show_response write_raises r) = inr tt.
Proof. apply outcome_guarded. Qed.

Lemma outcome_show_transcript w r :
  outcome (show_transcript write_raises w r) = inr tt.
Proof. apply outcome_guarded. Qed.

Lemma transcribe_trace src opts :
  trace (transcribe transcribe_file src opts)
  = [Request {| buffer := buffer src |} opts].
Proof.
  unfold transcribe. rewrite trace_bind. cbn. reflexivity.
Qed.

Lemma transcribe_outcome src opts :
  outcome (transcribe transcribe_file src opts)
  = transcribe_file {| buffer := buffer src |} opts.
Proof. unfold transcribe. rewrite outcome_bind. reflexivity. Qed.

(** The shape of a run: the request, then the detected-language line, then
    the three guarded blocks. *)
Lemma run_trace w src opts :
  trace (run w src opts)
  = Request {| buffer := buffer src |} opts ::
    match transcribe_file {| buffer := buffer src |} opts with
    | inl _ => []
    | inr response =>
        trace (show_language write_raises py_repr response) ++
        match outcome (show_language write_raises py_repr response) with
        | inl _ => []
        | inr _ =>
            trace (show_summary write_raises w response) ++
            trace (show_response write_raises response) ++
            trace (show_transcript write_raises w response)
        end
    end.
Proof.
  unfold prerecorded. rewrite trace_bind, transcribe_trace, transcribe_outcome.
  cbn [app]. f_equal.
  destruct (transcribe_file _ opts) as [e|response]; [reflexivity|].
  rewrite trace_bind. f_equal.
  destruct (outcome (show_language _ _ response)) as [e|u]; [reflexivity|].
  rewrite trace_bind, outcome_show_summary. f_equal.
  rewrite trace_bind, outcome_show_response. reflexivity.
Qed.

Lemma run_outcome w src opts :
  outcome (run w src opts)
  = match transcribe_file {| buffer := buffer src |} opts with
    | inl e => inl e
    | inr response =>
        match outcome (show_language write_raises py_repr response) with
        | inl e => inl e
        | inr _ => inr tt
        end
    end.
Proof.
  unfold prerecorded. rewrite outcome_bind, transcribe_outcome.
  destruct (transcribe_file _ opts) as [e|response]; [reflexivity|].
  rewrite outcome_bind.
  destruct (outcome (show_language _ _ response)) as [e|u]; [reflexivity|].
  rewrite outcome_bind, outcome_show_summary.
  rewrite outcome_bind, outcome_show_response.
  apply outcome_show_transcript.
Qed.

(** *** The detected-language line *)

Lemma index_of_listed (d : json) (i : nat) :
  index_of d LANGUAGES_values = Some i ->
  d = JNull \/ d = JStr "en" \/ d = JStr "fr" \/ d = JStr "hi".
Proof.
  destruct d as [ | | | |t| | ]; cbn; try discriminate; auto.
  destruct (String.eqb_spec t "en") as [-> | _]; [auto|].
  destruct (String.eqb_spec t "fr") as [-> | _]; [auto|].
  destruct (String.eqb_spec t "hi") as [-> | _]; [auto|].
  discriminate.
Qed.

Lemma index_of_unlisted (d : json) :
  truthy d = true ->
  d <> JStr "en" -> d <> JStr "fr" -> d <> JStr "hi" ->
  index_of d LANGUAGES_values = None.
Proof.
  intros Ht Hen Hfr Hhi.
  destruct (index_of d LANGUAGES_values) as [i|] eqn:E; [|reflexivity].
  apply index_of_listed in E as [-> | [-> | [-> | ->]]]; try contradiction.
  discriminate Ht.
Qed.

(** C9: when the response carries a truthy [detected_language] other than
    [en], [fr] and [hi], the reverse lookup in [LANGUAGES] raises a
    [ValueError] inside [prerecorded]: the run ends there, after the request
    and before anything is written, so no detected-language line is shown. *)
Theorem unlisted_language_raises w src opts response d :
  transcribe_file {| buffer := buffer src |} opts = inr response ->
  detected_language_of response = inr d ->
  truthy d = true ->
  d <> JStr "en" -> d <> JStr "fr" -> d <> JStr "hi" ->
  outcome (run w src opts)
  = inl (Exn ValueError (py_repr d +:+ " is not in list"))
  /\ trace (run w src opts) = [Request {| buffer := buffer src |} opts]
  /\ forall v, ~ In (Write Page v) (trace (run w src opts)).
Proof.
  intros Hresp Hd Ht Hen Hfr Hhi.
  assert (Hrun : run w src opts
                 = ([Request {| buffer := buffer src |} opts],
                    inl (Exn ValueError (py_repr d +:+ " is not in list")))).
  { unfold prerecorded, transcribe, show_language. cbn. rewrite Hresp. cbn.
    rewrite Hd. cbn. rewrite Ht.
    unfold show_detected_language, language_of_code.
    rewrite (index_of_unlisted d Ht Hen Hfr Hhi). reflexivity. }
  rewrite Hrun. cbn. repeat split.
  intros v [Hv|Hv]; [discriminate Hv | destruct Hv].
Qed.

(** The line is written only for a truthy value that is one of the three
    codes. *)
Lemma detected_line_needs_listed r v :
  In (Write Page v) (trace (show_language write_raises py_repr r)) ->
  exists d, detected_language_of r = inr d /\ truthy d = true
            /\ (d = JStr "en" \/ d = JStr "fr" \/ d = JStr "hi").
Proof.
  unfold show_language, show_detected_language, language_of_code.
  destruct (detected_language_of r) as [e|d]; [intros H; destruct H|].
  cbn [lift bind]. destruct (truthy d) eqn:Ht; [|intros H; destruct H].
  destruct (index_of d LANGUAGES_values) as [i|] eqn:Ei;
    [|intros H; destruct H].
  intros _. exists d. split; [reflexivity|]. split; [exact Ht|].
  apply index_of_listed in Ei as [-> | H]; [discriminate Ht|exact H].
Qed.

(** The tab bar has a Summary tab exactly when Summarization is ticked. *)
Lemma summary_tab_iff_summarize w r labels :
  In (Tabs labels) (trace (show_summary write_raises w r)) ->
  (In "🤏Summary" labels <-> summarize w = true).
Proof.
  unfold show_summary. destruct (summarize w).
  - rewrite trace_bind. cbn [outcome emit snd trace fst app]. intros [H|H].
    + inversion H; subst. split; [reflexivity|]. intros _. cbn. auto.
    + exfalso. revert H. unfold write_summary, st_write.
      destruct (subscript r summary_path) as [e|v]; cbn;
        [intros [H|H]; [discriminate H|destruct H]|].
      destruct (write_raises Tab3 v); cbn;
        intros [H|H]; try discriminate H; destruct H.
  - cbn. intros [H|H]; [|destruct H]. inversion H; subst.
    split; [|discriminate]. cbn.
    intros [H'|[H'|H']]; [discriminate H'|discriminate H'|destruct H'].
Qed.

(** For the three listed codes the line is written, naming the language. *)
Lemma listed_language_shown w src opts response code name :
  transcribe_file {| buffer := buffer src |} opts = inr response ->
  detected_language_of response = inr (JStr code) ->
  In (code, name) [("en", "English"); ("fr", "French"); ("hi", "Hindi")] ->
  write_raises Page
    (JStr ("🔠 __Detected language:__ " +:+ code +:+ " (" +:+ name +:+ ")")) = None ->
  In (Write Page
        (JStr ("🔠 __Detected language:__ " +:+ code +:+ " (" +:+ name +:+ ")")))
     (trace (run w src opts)).
Proof.
  intros Hresp Hd Hin Hw.
  assert (Hline : show_language write_raises py_repr response
                  = ([Write Page
                        (JStr ("🔠 __Detected language:__ " +:+ code
                               +:+ " (" +:+ name +:+ ")"))], inr tt)).
  { unfold show_language, show_detected_language, st_write. cbn. rewrite Hd.
    destruct Hin as [E|[E|[E|E]]]; [| | |destruct E]; inversion E; subst;
      cbn in Hw |- *; rewrite Hw; reflexivity. }
  rewrite run_trace, Hresp, Hline. right. left. reflexivity.
Qed.

(** *** Which stage writes where *)

Lemma show_language_events r :
  Forall (fun ev => page_event Page ev = true)
         (trace (show_language write_raises py_repr r)).
Proof.
  unfold show_language, show_detected_language, st_write.
  destruct (detected_language_of r) as [e|d]; cbn; [constructor|].
  destruct (truthy d); cbn; [|constructor].
  destruct (language_of_code py_repr d) as [e|name]; cbn; [constructor|].
  destruct (write_raises Page _); cbn; repeat constructor.
Qed.

Lemma show_summary_events w r :
  Forall (fun ev => page_event Tab3 ev = true)
         (trace (show_summary write_raises w r)).
Proof.
  unfold show_summary, write_summary, st_write.
  destruct (subscript r summary_path) as [e|v];
    destruct (summarize w); cbn; try (repeat constructor; fail).
  destruct (write_raises Tab3 v); cbn; repeat constructor.
Qed.

Lemma show_response_events r :
  Forall (fun ev => page_event Tab1 ev = true)
         (trace (show_response write_raises r)).
Proof.
  unfold show_response, st_write.
  destruct (write_raises Tab1 r); cbn; repeat constructor.
Qed.

Lemma show_transcript_events w r :
  Forall (fun ev => page_event Tab2 ev = true)
         (trace (show_transcript write_raises w r)).
Proof.
  unfold show_transcript, write_transcript, st_write.
  destruct (subscript r paragraphs_path) as [e|v];
    destruct (subscript r transcript_path) as [e'|v'];
    destruct (paragraphs w || smart_format w); cbn;
    try (repeat constructor; fail);
    match goal with |- context [write_raises Tab2 ?x] =>
      destruct (write_raises Tab2 x) end; cbn; repeat constructor.
Qed.

Lemma page_event_quiet c c' t :
  c <> c' ->
  Forall (fun ev => page_event c ev = true) t ->
  Forall (fun ev => writes_to c' ev = false) t.
Proof.
  intros Hc H. eapply Forall_impl; [exact H|].
  intros [ | | c0 v | | ]; cbn; try reflexivity.
  intros ->%bool_decide_eq_true. apply bool_decide_eq_false. congruence.
Qed.

Lemma page_event_requests c t :
  Forall (fun ev => page_event c ev = true) t -> requests t = 0.
Proof.
  unfold requests. induction 1 as [|ev t Hev _ IH]; [reflexivity|].
  destruct ev; cbn in Hev; try discriminate Hev; exact IH.
Qed.

Lemma quiet_not_in c v t :
  Forall (fun ev => writes_to c ev = false) t -> ~ In (Write c v) t.
Proof.
  intros H Hin. rewrite Forall_forall in H.
  apply list_elem_of_In, H in Hin. cbn in Hin.
  rewrite bool_decide_eq_false in Hin. now apply Hin.
Qed.

Lemma write_transcript_unfold w r :
  write_transcript write_raises w r
  = let* v := lift (subscript r (transcript_field w)) in write Tab2 v.
Proof.
  unfold write_transcript, transcript_field.
  destruct (paragraphs w || smart_format w); reflexivity.
Qed.

(** The last block writes the chosen field, and nothing else, into the
    Transcript tab. *)
Lemma show_transcript_writes w r v :
  In (Write Tab2 v) (trace (show_transcript write_raises w r))
  <-> subscript r (transcript_field w) = inr v /\ write_raises Tab2 v = None.
Proof.
  unfold show_transcript. rewrite write_transcript_unfold. unfold st_write.
  destruct (subscript r (transcript_field w)) as [e|v']; cbn.
  - split; [intros [H|[]]; discriminate H | intros [H _]; discriminate H].
  - destruct (write_raises Tab2 v') as [e|] eqn:Hw; cbn.
    + split; [intros [H|[]]; discriminate H|].
      intros [H Hn]. inversion H; subst. congruence.
    + split.
      * intros [H|[]]. inversion H; subst. auto.
      * intros [H _]. inversion H; subst. now left.
Qed.

(** C6: whatever is written into the Transcript tab is the
    [paragraphs.transcript] field of the first alternative of the first
    channel when Paragraphs or Smart Format is ticked, and its [transcript]
    field otherwise; and that field is written whenever the run gets as far
    as the tabs, the field is present and the write itself goes through. *)
Theorem transcript_tab_shows_chosen_field w src opts :
  (forall v, In (Write Tab2 v) (trace (run w src opts)) ->
     exists response,
       transcribe_file {| buffer := buffer src |} opts = inr response
       /\ subscript response
            (if paragraphs w || smart_format w
             then [Key "results"; Key "channels"; Idx0; Key "alternatives"; Idx0;
                   Key "paragraphs"; Key "transcript"]
             else [Key "results"; Key "channels"; Idx0; Key "alternatives"; Idx0;
                   Key "transcript"]) = inr v)
  /\ (forall response v,
       transcribe_file {| buffer := buffer src |} opts = inr response ->
       outcome (show_language write_raises py_repr response) = inr tt ->
       subscript response
         (if paragraphs w || smart_format w
          then [Key "results"; Key "channels"; Idx0; Key "alternatives"; Idx0;
                Key "paragraphs"; Key "transcript"]
          else [Key "results"; Key "channels"; Idx0; Key "alternatives"; Idx0;
                Key "transcript"]) = inr v ->
       write_raises Tab2 v = None ->
       In (Write Tab2 v) (trace (run w src opts))).
Proof.
  change (if paragraphs w || smart_format w
          then [Key "results"; Key "channels"; Idx0; Key "alternatives"; Idx0;
                Key "paragraphs"; Key "transcript"]
          else [Key "results"; Key "channels"; Idx0; Key "alternatives"; Idx0;
                Key "transcript"])
    with (transcript_field w).
  split.
  - intros v. rewrite run_trace. intros [H|H]; [discriminate H|].
    destruct (transcribe_file _ opts) as [e|response]; [destruct H|].
    exists response. split; [reflexivity|].
    apply in_app_or in H as [H|H].
    { exfalso. revert H.
      apply quiet_not_in, (page_event_quiet Page), show_language_events.
      discriminate. }
    destruct (outcome (show_language _ _ response)); [destruct H|].
    apply in_app_or in H as [H|H].
    { exfalso. revert H.
      apply quiet_not_in, (page_event_quiet Tab3), show_summary_events.
      discriminate. }
    apply in_app_or in H as [H|H].
    { exfalso. revert H.
      apply quiet_not_in, (page_event_quiet Tab1), show_response_events.
      discriminate. }
    now apply show_transcript_writes in H.
  - intros response v Hresp Hlang Hv Hw.
    rewrite run_trace, Hresp, Hlang. right.
    apply in_or_app. right. apply in_or_app. right. apply in_or_app. right.
    apply show_transcript_writes. auto.
Qed.

(** *** Requests of one run *)

Lemma run_requests w src opts : requests (trace (run w src opts)) = 1.
Proof.
  rewrite run_trace.
  change (requests ([Request {| buffer := buffer src |} opts] ++
            match transcribe_file {| buffer := buffer src |} opts with
            | inl _ => []
            | inr response =>
                trace (show_language write_raises py_repr response) ++
                match outcome (show_language write_raises py_repr response) with
                | inl _ => []
                | inr _ =>
                    trace (show_summary write_raises w response) ++
                    trace (show_response write_raises response) ++
                    trace (show_transcript write_raises w response)
                end
            end) = 1).
  rewrite requests_app.
  destruct (transcribe_file _ opts) as [e|response]; [reflexivity|].
  rewrite requests_app,
    (page_event_requests Page _ (show_language_events response)).
  destruct (outcome (show_language _ _ response)); [reflexivity|].
  rewrite !requests_app.
  rewrite (page_event_requests Tab3 _ (show_summary_events w response)).
  rewrite (page_event_requests Tab1 _ (show_response_events response)).
  rewrite (page_event_requests Tab2 _ (show_transcript_events w response)).
  reflexivity.
Qed.

Lemma page_event_not_request c t ev :
  Forall (fun ev => page_event c ev = true) t -> In ev t -> is_request ev = false.
Proof.
  intros H Hin. rewrite Forall_forall in H.
  apply list_elem_of_In, H in Hin. destruct ev; cbn in *; congruence.
Qed.

Lemma page_event_not_code c t body :
  Forall (fun ev => page_event c ev = true) t -> ~ In (Code body) t.
Proof.
  intros H Hin. rewrite Forall_forall in H.
  apply list_elem_of_In, H in Hin. discriminate Hin.
Qed.

(** Every event of a run is the request or a page event of one stage. *)
Lemma run_events w src opts ev :
  In ev (trace (run w src opts)) ->
  ev = Request {| buffer := buffer src |} opts
  \/ exists c, page_event c ev = true.
Proof.
  rewrite run_trace. intros [H|H]; [now left|right].
  destruct (transcribe_file _ opts) as [e|response]; [destruct H|].
  apply in_app_or in H as [H|H].
  { exists Page. pose proof (show_language_events response) as Hf.
    rewrite Forall_forall in Hf. now apply Hf, list_elem_of_In. }
  destruct (outcome (show_language _ _ response)); [destruct H|].
  apply in_app_or in H as [H|H].
  { exists Tab3. pose proof (show_summary_events w response) as Hf.
    rewrite Forall_forall in Hf. now apply Hf, list_elem_of_In. }
  apply in_app_or in H as [H|H].
  { exists Tab1. pose proof (show_response_events response) as Hf.
    rewrite Forall_forall in Hf. now apply Hf, list_elem_of_In. }
  exists Tab2. pose proof (show_transcript_events w response) as Hf.
  rewrite Forall_forall in Hf. now apply Hf, list_elem_of_In.
Qed.

End Stages.

(** ** The memoised call and the Transcribe button *)

Lemma cache_lookup_head (key : source * kwargs) (t : list event) (c : cache) :
  cache_lookup key ((key, t) :: c) = Some t.
Proof. cbn. destruct (decide (key = key)); [reflexivity|contradiction]. Qed.

Lemma cache_lookup_ok (c : cache) (key : source * kwargs) (t : list event) :
  cache_ok c -> cache_lookup key c = Some t -> requests t = 0.
Proof.
  induction 1 as [|[key' t'] c Hhd _ IH]; cbn; [discriminate|].
  destruct (decide (key = key')); [|exact IH].
  intros [= <-]. exact Hhd.
Qed.

Lemma requests_elements (t : list event) : requests (filter is_element t) = 0.
Proof.
  unfold requests. induction t as [|ev t IH]; [reflexivity|].
  destruct ev; cbn; exact IH.
Qed.

Lemma no_requests_not_in (t : list event) (ev : event) :
  requests t = 0 -> In ev t -> is_request ev = false.
Proof.
  unfold requests. induction t as [|ev' t IH]; [intros _ []|].
  destruct ev'; cbn; try discriminate;
    intros H0 [<-|Hin]; try reflexivity; now apply IH.
Qed.

Lemma elements_id (t : list event) :
  requests t = 0 -> filter is_element t = t.
Proof.
  unfold requests. induction t as [|ev t IH]; [reflexivity|].
  destruct ev; cbn; try discriminate; intros H0; f_equal; now apply IH.
Qed.

Section Click.

Variable transcribe_file : source -> kwargs -> result json.
Variable write_raises : container -> json -> option exn.
Variable py_repr : json -> string.
Variable format_exc : exn -> string.

Abbreviation body := (prerecorded transcribe_file write_raises py_repr).
Abbreviation memo := (prerecorded_cached transcribe_file write_raises py_repr).
Abbreviation click :=
  (on_click transcribe_file write_raises py_repr format_exc).

Lemma memo_hit c w src opts t :
  cache_lookup (src, opts) c = Some t ->
  memo c w src opts = (c, (t, inr tt)).
Proof. unfold prerecorded_cached. now intros ->. Qed.

Lemma memo_miss c w src opts :
  cache_lookup (src, opts) c = None ->
  memo c w src opts
  = (match outcome (body w src opts) with
     | inr _ => ((src, opts), filter is_element (trace (body w src opts))) :: c
     | inl _ => c
     end, body w src opts).
Proof.
  unfold prerecorded_cached. intros ->.
  destruct (outcome (body w src opts)); reflexivity.
Qed.

Lemma memo_cache_ok c w src opts :
  cache_ok c -> cache_ok (fst (memo c w src opts)).
Proof.
  intros Hc. destruct (cache_lookup (src, opts) c) as [t|] eqn:E.
  - now rewrite (memo_hit _ _ _ _ _ E).
  - rewrite (memo_miss _ _ _ _ E). cbn [fst].
    destruct (outcome (body w src opts)); [exact Hc|].
    constructor; [apply requests_elements|exact Hc].
Qed.

Lemma memo_requests c w src opts :
  cache_ok c ->
  requests (trace (snd (memo c w src opts)))
  = match cache_lookup (src, opts) c with Some _ => 0 | None => 1 end.
Proof.
  intros Hc. destruct (cache_lookup (src, opts) c) as [t|] eqn:E.
  - rewrite (memo_hit _ _ _ _ _ E). cbn [snd trace fst].
    exact (cache_lookup_ok _ _ _ Hc E).
  - rewrite (memo_miss _ _ _ _ E). cbn [snd]. apply run_requests.
Qed.

Lemma report_cases e :
  (endswith (exn_str e) "timed out" = true
   /\ report format_exc e = ([Error (timeout_message e) (Some "⌚")], inr tt))
  \/ (endswith (exn_str e) "timed out" = false
      /\ report format_exc e
         = ([Error (error_message e) (Some "🥺"); Code (format_exc e)], inr tt)).
Proof.
  unfold report. destruct (endswith (exn_str e) "timed out"); [left|right]; auto.
Qed.

Lemma report_outcome e : outcome (report format_exc e) = inr tt.
Proof. destruct (report_cases e) as [[_ ->]|[_ ->]]; reflexivity. Qed.

Lemma report_requests e : requests (trace (report format_exc e)) = 0.
Proof. destruct (report_cases e) as [[_ ->]|[_ ->]]; reflexivity. Qed.

Lemma click_unfold c w src opts :
  click c w src opts
  = (fst (memo c w src opts),
     try_except (snd (memo c w src opts)) (report format_exc)).
Proof. unfold on_click. destruct (memo c w src opts); reflexivity. Qed.

Lemma click_trace c w src opts :
  trace (snd (click c w src opts))
  = trace (snd (memo c w src opts)) ++
    match outcome (snd (memo c w src opts)) with
    | inl e => trace (report format_exc e)
    | inr _ => []
    end.
Proof. rewrite click_unfold. cbn [snd]. apply trace_try_except. Qed.

Lemma click_outcome c w src opts : outcome (snd (click c w src opts)) = inr tt.
Proof.
  rewrite click_unfold. cbn [snd]. rewrite outcome_try_except.
  destruct (outcome (snd (memo c w src opts))) as [e|[]];
    [apply report_outcome|reflexivity].
Qed.


(** C3: a click never lets an exception out.  When the run raises [e], from
    the transcription call or from the detected-language line, the click
    shows the page of the run followed by the error report for [e], whose
    text contains [str(e)], and stores nothing; an exception inside one of
    the three guarded blocks is shown by [st.error(e)] and the block
    returns.  The [except] blocks emit error boxes and code blocks only. *)
Theorem click_catches_and_prints c w src opts :
  outcome (snd (click c w src opts)) = inr tt
  /\ (forall e,
       transcribe_file {| buffer := buffer src |} opts = inl e ->
       outcome (body w src opts) = inl e)
  /\ (forall e,
       cache_lookup (src, opts) c = None ->
       outcome (body w src opts) = inl e ->
       trace (snd (click c w src opts))
       = trace (body w src opts) ++ trace (report format_exc e)
       /\ (exists text icon,
            In (Error text icon) (trace (report format_exc e))
            /\ mentions (exn_str e) text)
       /\ fst (click c w src opts) = c)
  /\ (forall e ev,
       In ev (trace (report format_exc e)) \/ In ev (trace (st_error e)) ->
       is_report ev = true)
  /\ (forall response e,
       (summarize w = true ->
        outcome (write_summary write_raises response) = inl e ->
        outcome (show_summary write_raises w response) = inr tt
        /\ In (Error (exn_str e) None)
              (trace (show_summary write_raises w response)))
       /\ (outcome (st_write write_raises Tab1 response) = inl e ->
           outcome (show_response write_raises response) = inr tt
           /\ In (Error (exn_str e) None)
                 (trace (show_response write_raises response)))
       /\ (outcome (write_transcript write_raises w response) = inl e ->
           outcome (show_transcript write_raises w response) = inr tt
           /\ In (Error (exn_str e) None)
                 (trace (show_transcript write_raises w response)))).
Proof.
  split; [apply click_outcome|]. split; [|split; [|split]].
  - intros e He. rewrite run_outcome, He. reflexivity.
  - intros e Hmiss He. split; [|split].
    + rewrite click_trace, (memo_miss _ _ _ _ Hmiss). cbn [snd].
      rewrite He. reflexivity.
    + destruct (report_cases e) as [[_ ->]|[_ ->]].
      * exists (timeout_message e), (Some "⌚"). split; [now left|].
        exists "". eexists. reflexivity.
      * exists (error_message e), (Some "🥺"). split; [now left|].
        exists ("The app has encountered an error:  " +:+ nl +:+ indent +:+ "`").
        eexists. reflexivity.
    + rewrite click_unfold, (memo_miss _ _ _ _ Hmiss). cbn [fst].
      rewrite He. reflexivity.
  - intros e ev [Hin|Hin].
    + destruct (report_cases e) as [[_ Hr]|[_ Hr]]; rewrite Hr in Hin;
        cbn in Hin; intuition (subst; reflexivity).
    + cbn in Hin. intuition (subst; reflexivity).
  - intros response e. split; [|split].
    + intros Hs He. split; [apply outcome_show_summary|].
      unfold show_summary. rewrite Hs, trace_bind. cbn [outcome emit snd].
      apply in_or_app. right. rewrite trace_guarded, He.
      apply in_or_app. right. now left.
    + intros He. split; [apply outcome_show_response|].
      unfold show_response. rewrite trace_guarded, He.
      apply in_or_app. right. now left.
    + intros He. split; [apply outcome_show_transcript|].
      unfold show_transcript. rewrite trace_guarded, He.
      apply in_or_app. right. now left.
Qed.

(** C4, amended: one run of the body of [prerecorded] issues exactly one
    request, a single [transcribe_file] call.  A click issues that one
    request when its arguments are not in the store and none when they are;
    any request in the trace of a click is that call. *)
Theorem click_issues_at_most_one_request c w src opts :
  cache_ok c ->
  requests (trace (body w src opts)) = 1
  /\ requests (trace (snd (click c w src opts)))
     = match cache_lookup (src, opts) c with Some _ => 0 | None => 1 end
  /\ (forall ev,
       In ev (trace (snd (click c w src opts))) ->
       is_request ev = true ->
       ev = Request {| buffer := buffer src |} opts).
Proof.
  intros Hc. split; [apply run_requests|]. split.
  - rewrite click_trace, requests_app, (memo_requests _ _ _ _ Hc).
    destruct (outcome (snd (memo c w src opts))); [rewrite report_requests|];
      cbn; lia.
  - intros ev Hin Hreq. rewrite click_trace in Hin.
    apply in_app_or in Hin as [Hin|Hin].
    + destruct (cache_lookup (src, opts) c) as [t|] eqn:E.
      * rewrite (memo_hit _ _ _ _ _ E) in Hin. cbn [snd trace fst] in Hin.
        rewrite (no_requests_not_in t ev (cache_lookup_ok _ _ _ Hc E) Hin) in Hreq.
        discriminate Hreq.
      * rewrite (memo_miss _ _ _ _ E) in Hin. cbn [snd] in Hin.
        apply run_events in Hin as [H|[k H]]; [exact H|].
        destruct ev; cbn in H, Hreq; congruence.
    + destruct (outcome (snd (memo c w src opts))) as [e|u]; [|destruct Hin].
      rewrite (no_requests_not_in _ ev (report_requests e) Hin) in Hreq.
      discriminate Hreq.
Qed.


End Click.

(** C2, as stated, fails: after a first click, a second click with the same
    arguments issues no request and shows the stored page of the first
    run, although the service would now answer differently. *)
Lemma second_call_is_not_performed :
  let first :=
    prerecorded_cached (answers (sample_response (JStr "fr"))) renders sample_repr
      [] sample_widgets sample_source (options sample_widgets) in
  let second :=
    prerecorded_cached (answers (sample_response (JStr "hi"))) renders sample_repr
      (fst first) sample_widgets sample_source (options sample_widgets) in
  requests (trace (snd first)) = 1
  /\ requests (trace (snd second)) = 0
  /\ In (Write Page (JStr "🔠 __Detected language:__ fr (French)"))
        (trace (snd second))
  /\ trace (prerecorded (answers (sample_response (JStr "hi"))) renders sample_repr
             sample_widgets sample_source (options sample_widgets))
     <> trace (snd second).
Proof.
  vm_compute. repeat split; [tauto | discriminate].
Qed.

(** C2, amended: [prerecorded] is memoised on its arguments.  A call whose
    arguments are not in the store performs the remote call; once a call has
    returned, a further call with the same arguments performs no remote
    call, whatever the service would answer, and replays the page elements
    of the stored run; a run that raises is not stored. *)
Theorem repeated_call_is_replayed
    tf wr rp tf' wr' rp' (c : cache) (w w' : widgets) (src : source) (opts : kwargs) :
  cache_ok c ->
  let first := prerecorded_cached tf wr rp c w src opts in
  let second := prerecorded_cached tf' wr' rp' (fst first) w' src opts in
  (cache_lookup (src, opts) c = None -> requests (trace (snd first)) = 1)
  /\ (outcome (snd first) = inr tt ->
      requests (trace (snd second)) = 0
      /\ trace (snd second) = filter is_element (trace (snd first))
      /\ outcome (snd second) = inr tt
      /\ fst second = fst first)
  /\ (forall e, cache_lookup (src, opts) c = None ->
      outcome (snd first) = inl e -> fst first = c).
Proof.
  intros Hc first second. subst first second. split; [|split].
  - intros Hmiss. rewrite (memo_requests _ _ _ _ _ _ _ Hc), Hmiss. reflexivity.
  - intros Hret. destruct (cache_lookup (src, opts) c) as [t|] eqn:E.
    + rewrite (memo_hit tf wr rp _ w _ _ _ E). cbn [fst snd].
      rewrite (memo_hit tf' wr' rp' _ w' _ _ _ E). cbn [fst snd trace outcome].
      pose proof (cache_lookup_ok _ _ _ Hc E) as H0.
      rewrite (elements_id _ H0). auto.
    + rewrite (memo_miss tf wr rp _ w _ _ E) in Hret |- *. cbn [fst snd] in Hret |- *.
      rewrite Hret.
      rewrite (memo_hit tf' wr' rp' _ w' _ _ _ (cache_lookup_head _ _ _)).
      cbn [fst snd trace outcome]. rewrite requests_elements. auto.
  - intros e Hmiss He.
    rewrite (memo_miss tf wr rp _ w _ _ Hmiss) in He |- *. cbn [fst snd] in He |- *.
    rewrite He. reflexivity.
Qed.

Lemma repeated_call_is_replayed_witness :
  requests
    (trace
       (snd (prerecorded_cached (answers (sample_response (JStr "hi"))) renders
               sample_repr
               (fst (prerecorded_cached (answers (sample_response (JStr "fr")))
                       renders sample_repr [] sample_widgets sample_source
                       (options sample_widgets)))
               sample_widgets sample_source (options sample_widgets)))) = 0.
Proof.
  apply (repeated_call_is_replayed
           (answers (sample_response (JStr "fr"))) renders sample_repr
           (answers (sample_response (JStr "hi"))) renders sample_repr
           [] sample_widgets sample_widgets sample_source (options sample_widgets)
           (Forall_nil_2 _)).
  reflexivity.
Defined.

(** C4, as stated, fails: the second of two clicks with the same arguments
    issues no request. *)
Lemma second_click_issues_no_request :
  let click :=
    on_click (answers (sample_response (JStr "fr"))) renders sample_repr
      sample_format_exc in
  let first := click [] sample_widgets sample_source (options sample_widgets) in
  let second :=
    click (fst first) sample_widgets sample_source (options sample_widgets) in
  outcome (snd first) = inr tt
  /\ requests (trace (snd second)) = 0
  /\ requests (trace (snd second)) <> 1.
Proof. vm_compute. repeat split. discriminate. Qed.

Lemma click_issues_at_most_one_request_witness :
  requests
    (trace
       (snd (on_click (answers (sample_response (JStr "fr"))) renders sample_repr
               sample_format_exc sample_cache sample_widgets sample_source
               (options sample_widgets)))) = 0.
Proof.
  assert (Hc : cache_ok sample_cache) by (repeat constructor).
  exact (proj1 (proj2 (click_issues_at_most_one_request
                         (answers (sample_response (JStr "fr"))) renders
                         sample_repr sample_format_exc sample_cache
                         sample_widgets sample_source (options sample_widgets)
                         Hc))).
Defined.

Lemma click_catches_and_prints_witness :
  trace (snd (on_click (refuses unauthorized) renders sample_repr
                sample_format_exc [] sample_widgets sample_source
                (options sample_widgets)))
  = trace (prerecorded (refuses unauthorized) renders sample_repr
             sample_widgets sample_source (options sample_widgets))
    ++ trace (report sample_format_exc unauthorized).
Proof.
  pose proof (click_catches_and_prints (refuses unauthorized) renders sample_repr
                sample_format_exc [] sample_widgets sample_source
                (options sample_widgets)) as (_ & _ & H & _).
  apply (H unauthorized); reflexivity.
Defined.


Lemma unlisted_language_raises_witness :
  outcome (prerecorded (answers (sample_response (JStr "es"))) renders sample_repr
             sample_widgets sample_source (options sample_widgets))
  = inl (Exn ValueError "'es' is not in list").
Proof.
  apply (unlisted_language_raises (answers (sample_response (JStr "es"))) renders
           sample_repr sample_widgets sample_source (options sample_widgets)
           (sample_response (JStr "es")) (JStr "es"));
    first [reflexivity | discriminate].
Defined.

Lemma transcript_tab_shows_chosen_field_witness :
  In (Write Tab2 (JStr "Hi there."))
     (trace (prerecorded (answers (sample_response (JStr "fr"))) renders sample_repr
               sample_widgets sample_source (options sample_widgets))).
Proof.
  apply (proj2 (transcript_tab_shows_chosen_field
                  (answers (sample_response (JStr "fr"))) renders sample_repr
                  sample_widgets sample_source (options sample_widgets))
           (sample_response (JStr "fr")) (JStr "Hi there."));
    reflexivity.
Defined.

(** ** The failing detected-language line *)

(** C7 fails on this run: the first channel of the response carries the
    truthy [detected_language] value [es] and Summarization is ticked, yet the
    run raises after the request: no detected-language line is written and no
    tab bar is drawn.  (C9 describes the same defect.) *)
Theorem spanish_detected_not_shown :
  let run :=
    prerecorded (answers (sample_response (JStr "es"))) renders sample_repr
      sample_widgets sample_source (options sample_widgets) in
  detected_language_of (sample_response (JStr "es")) = inr (JStr "es")
  /\ truthy (JStr "es") = true
  /\ summarize sample_widgets = true
  /\ trace run = [Request sample_source (options sample_widgets)]
  /\ outcome run = inl (Exn ValueError "'es' is not in list").
Proof. vm_compute. repeat split. Qed.

(** ** The API key *)

(** C8 fails on these runs: the text box is empty and reading [st.secrets]
    raises [e], as it does when there is no secrets file.  The membership
    test of line 125 then ends the run with [e]: the environment variable is
    not consulted although it holds a key, and with nothing in the
    environment either there is no "Please enter" error and no [st.stop()].
    In both runs no client is made. *)
Theorem environment_key_not_reached
    (new_client : string -> result DeepgramClient) (e : exn) (k : string) :
  deepgram new_client "" (inl e) {["DEEPGRAM_API_KEY" := k]} = ([], inl e)
  /\ deepgram new_client "" (inl e) ∅ = ([], inl e).
Proof. split; reflexivity. Qed.

(** * Further properties of the script *)

(** ** The language table and the options object *)

(** X1: the two directions of the [LANGUAGES] table agree: the code the
    table gives for a label of the language box is looked up back to that
    label's name by the detected-language line. *)
Theorem language_code_round_trip
    (py_repr : json -> string) (l : language_label) (code : string) :
  LANGUAGES l = Some code ->
  language_of_code py_repr (JStr code) = inr (language_name l).
Proof. destruct l; intros [= <-]; reflexivity. Qed.

Lemma language_code_round_trip_witness :
  language_of_code sample_repr (JStr "hi") = inr "Hindi".
Proof. apply (language_code_round_trip sample_repr Hindi "hi"). reflexivity. Defined.

(** X2: [lang_options] always has exactly one entry and its value is never
    [None]: [detect_language = True] for automatic detection, and otherwise
    [language] with the code of the selected label. *)
Theorem lang_options_single_entry (w : widgets) :
  (language w = AutomaticLanguageDetection ->
   lang_options w = [("detect_language", PBool true)])
  /\ (language w <> AutomaticLanguageDetection ->
      exists code, LANGUAGES (language w) = Some code
                   /\ lang_options w = [("language", PStr code)])
  /\ (forall k v, In (k, v) (lang_options w) -> v <> PNone).
Proof.
  unfold lang_options. destruct (language w); cbn; (split; [|split]).
  all: try (intros k v [H|H]; [inversion H; discriminate | destruct H]).
  all: try (intros H; first [discriminate H | reflexivity | congruence]).
  all: intros _; eexists; split; reflexivity.
Qed.

Lemma lang_options_single_entry_witness :
  exists code, LANGUAGES (language sample_widgets) = Some code
               /\ lang_options sample_widgets = [("language", PStr code)].
Proof.
  apply (proj1 (proj2 (lang_options_single_entry sample_widgets))). discriminate.
Defined.

(** The choice in the language box has no effect on the options object:
    whatever is selected, the keyword arguments are the same, and none of
    them is named [language] or [detect_language]. *)
Lemma options_ignore_language (l : language_label) (w : widgets) :
  options (with_language l w) = options w
  /\ dict_get "language" (options (with_language l w)) = None
  /\ dict_get "detect_language" (options (with_language l w)) = None.
Proof. repeat split. Qed.

(** ** Subscripts *)

Lemma subscript_concat (v : json) (p q : list step) :
  subscript v (p ++ q) = rbind (subscript v p) (fun x => subscript x q).
Proof.
  revert v. induction p as [|s p IH]; intros v; [reflexivity|].
  cbn. destruct (subscript1 v s) as [e|x]; [reflexivity|]. apply IH.
Qed.

(** X3: the summary and both transcripts are looked up under the same first
    alternative of the first channel.  When that lookup raises [e], as with
    an empty [alternatives] list, the Transcript block shows one error box
    with [str(e)] and writes nothing, whichever flags are ticked, and with
    Summarization ticked the Summary block shows the tab bar and the same
    error box. *)
Theorem missing_alternative_fails_both_tabs
    (write_raises : container -> json -> option exn)
    (w : widgets) (response : json) (e : exn) :
  subscript response
    [Key "results"; Key "channels"; Idx0; Key "alternatives"; Idx0] = inl e ->
  show_transcript write_raises w response = ([Error (exn_str e) None], inr tt)
  /\ (summarize w = true ->
      show_summary write_raises w response
      = ([Tabs ["📝Response"; "🗒️Transcript"; "🤏Summary"];
          Error (exn_str e) None], inr tt)).
Proof.
  intros He.
  change [Key "results"; Key "channels"; Idx0; Key "alternatives"; Idx0]
    with alternative0 in He.
  split.
  - unfold show_transcript. rewrite write_transcript_unfold.
    unfold transcript_field, paragraphs_path, transcript_path.
    destruct (paragraphs w || smart_format w);
      rewrite subscript_concat, He; reflexivity.
  - intros Hs. unfold show_summary, write_summary, summary_path.
    rewrite Hs, subscript_concat, He. reflexivity.
Qed.

Lemma missing_alternative_fails_both_tabs_witness :
  show_transcript renders sample_widgets
    (JDict [("results", JDict [("channels", JList [JDict [("alternatives", JList [])]])])])
  = ([Error "list index out of range" None], inr tt).
Proof.
  apply (missing_alternative_fails_both_tabs renders sample_widgets
           (JDict [("results",
                    JDict [("channels", JList [JDict [("alternatives", JList [])]])])])
           (Exn IndexError "list index out of range")).
  reflexivity.
Defined.

Lemma subscript_then_first (v : json) (p : list step) :
  subscript v (p ++ [Idx0]) = rbind (subscript v p) getitem0.
Proof.
  revert v. induction p as [|s p IH]; intros v.
  - cbn. destruct (getitem0 v); reflexivity.
  - cbn. destruct (subscript1 v s) as [e|x]; [reflexivity|]. apply IH.
Qed.

Lemma subscript_first_alternative (alt : list (string * json)) :
  subscript (response_with alt) alternative0 = inr (JDict alt).
Proof. reflexivity. Qed.

(** ** What a run shows *)

Lemma tab_bars_app (t t' : list event) : tab_bars (t ++ t') = tab_bars t + tab_bars t'.
Proof. unfold tab_bars. now rewrite filter_app, length_app. Qed.

Section Rendering.

Variable transcribe_file : source -> kwargs -> result json.
Variable write_raises : container -> json -> option exn.
Variable py_repr : json -> string.

Abbreviation run' := (prerecorded transcribe_file write_raises py_repr).
Abbreviation language_line := (show_language write_raises py_repr).

Lemma tab_bars_guarded (m : ui unit) :
  tab_bars (trace (try_except m st_error)) = tab_bars (trace m).
Proof.
  rewrite trace_guarded, tab_bars_app.
  destruct (outcome m) as [e|u];
    [change (tab_bars [Error (exn_str e) None]) with 0
    |change (tab_bars []) with 0]; lia.
Qed.

Lemma tab_bars_st_write c v : tab_bars (trace (st_write write_raises c v)) = 0.
Proof. unfold st_write. destruct (write_raises c v); reflexivity. Qed.

Lemma tab_bars_language r : tab_bars (trace (language_line r)) = 0.
Proof.
  unfold show_language, show_detected_language.
  destruct (detected_language_of r) as [e|d]; [reflexivity|].
  cbn [lift bind]. destruct (truthy d); [|reflexivity].
  destruct (language_of_code py_repr d) as [e|name]; [reflexivity|].
  cbn [lift bind app].
  pose proof (tab_bars_st_write Page
    (JStr ("🔠 __Detected language:__ " +:+ py_str py_repr d
           +:+ " (" +:+ name +:+ ")"))) as H.
  destruct (st_write write_raises Page _) as [t [e|u]]; exact H.
Qed.

Lemma tab_bars_summary w r : tab_bars (trace (show_summary write_raises w r)) = 1.
Proof.
  unfold show_summary. destruct (summarize w); [|reflexivity].
  rewrite trace_bind, tab_bars_app. cbn [outcome emit snd].
  rewrite tab_bars_guarded. unfold write_summary.
  rewrite trace_bind, tab_bars_app. cbn [trace lift fst outcome snd].
  destruct (subscript r summary_path) as [e|v]; [reflexivity|].
  rewrite tab_bars_st_write. reflexivity.
Qed.

Lemma tab_bars_response r : tab_bars (trace (show_response write_raises r)) = 0.
Proof. unfold show_response. rewrite tab_bars_guarded. apply tab_bars_st_write. Qed.

Lemma tab_bars_transcript w r :
  tab_bars (trace (show_transcript write_raises w r)) = 0.
Proof.
  unfold show_transcript. rewrite tab_bars_guarded, write_transcript_unfold.
  rewrite trace_bind, tab_bars_app. cbn [trace lift fst outcome snd].
  destruct (subscript r (transcript_field w)) as [e|v]; [reflexivity|].
  rewrite tab_bars_st_write. reflexivity.
Qed.

(** X4: a run can raise only from the transcription call or from the
    detected-language line, and then no tab bar has been drawn; a run that
    returns has drawn exactly one tab bar. *)
Theorem run_raises_before_tabs w src opts :
  (forall e, outcome (run' w src opts) = inl e ->
     (transcribe_file {| buffer := buffer src |} opts = inl e
      \/ exists response,
           transcribe_file {| buffer := buffer src |} opts = inr response
           /\ outcome (language_line response) = inl e)
     /\ tab_bars (trace (run' w src opts)) = 0)
  /\ (outcome (run' w src opts) = inr tt -> tab_bars (trace (run' w src opts)) = 1).
Proof.
  rewrite run_outcome, run_trace.
  destruct (transcribe_file _ opts) as [e0|response].
  - split; [|discriminate]. intros e [= <-]. split; [now left|reflexivity].
  - change (Request {| buffer := buffer src |} opts :: ?t)
      with ([Request {| buffer := buffer src |} opts] ++ t).
    rewrite !tab_bars_app, tab_bars_language.
    destruct (outcome (language_line response)) as [e0|u] eqn:El.
    + split; [|discriminate]. intros e [= <-]. split; [|reflexivity].
      right. exists response. auto.
    + split; [discriminate|]. intros _.
      rewrite !tab_bars_app, tab_bars_summary, tab_bars_response,
        tab_bars_transcript. reflexivity.
Qed.

(** X5: when the first channel has no [detected_language] entry, or a falsy
    one, the detected-language line writes nothing and raises nothing. *)
Theorem undetected_language_is_silent response (channel : list (string * json)) :
  subscript response [Key "results"; Key "channels"; Idx0] = inr (JDict channel) ->
  (dict_get "detected_language" channel = None
   \/ exists d, dict_get "detected_language" channel = Some d /\ truthy d = false) ->
  language_line response = ([], inr tt).
Proof.
  intros Hch Hd. unfold show_language, detected_language_of.
  change channel0 with [Key "results"; Key "channels"; Idx0]. rewrite Hch.
  cbn [rbind get_or_none lift bind].
  destruct Hd as [-> | (d & -> & Hd)]; [reflexivity|].
  change (default JNull (Some d)) with d. rewrite Hd. reflexivity.
Qed.

(** X6: a response without a [results] entry makes the run raise
    [KeyError('results')], and a response with an empty [channels] list makes
    it raise [IndexError]; in both cases nothing is shown. *)
Theorem malformed_response_raises w src opts :
  (forall d,
     transcribe_file {| buffer := buffer src |} opts = inr (JDict d) ->
     dict_get "results" d = None ->
     run' w src opts
     = ([Request {| buffer := buffer src |} opts], inl (Exn KeyError "'results'")))
  /\ (forall response,
       transcribe_file {| buffer := buffer src |} opts = inr response ->
       subscript response [Key "results"; Key "channels"] = inr (JList []) ->
       run' w src opts
       = ([Request {| buffer := buffer src |} opts],
          inl (Exn IndexError "list index out of range"))).
Proof.
  split.
  - intros d Hr Hd. unfold prerecorded, transcribe, show_language,
      detected_language_of.
    cbn. rewrite Hr. cbn. rewrite Hd. reflexivity.
  - intros response Hr Hc.
    assert (Hl : detected_language_of response
                 = inl (Exn IndexError "list index out of range")).
    { unfold detected_language_of.
      change channel0 with ([Key "results"; Key "channels"] ++ [Idx0]).
      rewrite subscript_then_first, Hc. reflexivity. }
    unfold prerecorded, transcribe, show_language.
    cbn. rewrite Hr. cbn. rewrite Hl. reflexivity.
Qed.

End Rendering.

Lemma run_raises_before_tabs_witness :
  tab_bars (trace (prerecorded (answers (sample_response (JStr "fr"))) renders
                     sample_repr sample_widgets sample_source
                     (options sample_widgets))) = 1.
Proof.
  apply (proj2 (run_raises_before_tabs (answers (sample_response (JStr "fr")))
                  renders sample_repr sample_widgets sample_source
                  (options sample_widgets))).
  reflexivity.
Defined.

Lemma undetected_language_is_silent_witness :
  show_language renders sample_repr (response_with [("transcript", JStr "hi")])
  = ([], inr tt)
  /\ show_language renders sample_repr (sample_response (JStr ""))
     = ([], inr tt).
Proof.
  split.
  - apply (undetected_language_is_silent renders sample_repr
             (response_with [("transcript", JStr "hi")])
             [("alternatives", JList [JDict [("transcript", JStr "hi")]])]);
      [reflexivity | left; reflexivity].
  - eapply (undetected_language_is_silent renders sample_repr
              (sample_response (JStr ""))); [reflexivity|].
    right. exists (JStr ""). split; reflexivity.
Defined.

Lemma malformed_response_raises_witness :
  prerecorded (answers (JDict [("err_code", JStr "Bad Request")])) renders
    sample_repr sample_widgets sample_source (options sample_widgets)
  = ([Request sample_source (options sample_widgets)],
     inl (Exn KeyError "'results'"))
  /\ prerecorded (answers (JDict [("results", JDict [("channels", JList [])])]))
       renders sample_repr sample_widgets sample_source (options sample_widgets)
     = ([Request sample_source (options sample_widgets)],
        inl (Exn IndexError "list index out of range")).
Proof.
  split.
  - apply (proj1 (malformed_response_raises
                    (answers (JDict [("err_code", JStr "Bad Request")])) renders
                    sample_repr sample_widgets sample_source
                    (options sample_widgets))
             [("err_code", JStr "Bad Request")]); reflexivity.
  - apply (proj2 (malformed_response_raises
                    (answers (JDict [("results", JDict [("channels", JList [])])]))
                    renders sample_repr sample_widgets sample_source
                    (options sample_widgets))
             (JDict [("results", JDict [("channels", JList [])])])); reflexivity.
Defined.

(** ** What the tabs hold *)

Section TabContents.

Variable transcribe_file : source -> kwargs -> result json.
Variable write_raises : container -> json -> option exn.
Variable py_repr : json -> string.

Abbreviation run'' := (prerecorded transcribe_file write_raises py_repr).

(** A write into a tab happens in a run that got a response and passed the
    detected-language line, in one of the three guarded blocks. *)
Lemma run_tab_write c v w src opts :
  c <> Page ->
  (In (Write c v) (trace (run'' w src opts))
   <-> exists response,
         transcribe_file {| buffer := buffer src |} opts = inr response
         /\ outcome (show_language write_raises py_repr response) = inr tt
         /\ (In (Write c v) (trace (show_summary write_raises w response))
             \/ In (Write c v) (trace (show_response write_raises response))
             \/ In (Write c v) (trace (show_transcript write_raises w response)))).
Proof.
  intros Hc. rewrite run_trace. split.
  - intros [H|H]; [discriminate H|].
    destruct (transcribe_file _ opts) as [e|response]; [destruct H|].
    exists response. split; [reflexivity|].
    apply in_app_or in H as [H|H].
    { exfalso. revert H.
      apply quiet_not_in, (page_event_quiet Page), show_language_events.
      congruence. }
    destruct (outcome (show_language _ _ response)) as [e|[]]; [destruct H|].
    split; [reflexivity|].
    apply in_app_or in H as [H|H]; [now left|].
    apply in_app_or in H as [H|H]; auto.
  - intros (response & -> & -> & H). right.
    apply in_or_app. right.
    destruct H as [H|[H|H]]; apply in_or_app; [now left|right|right];
      apply in_or_app; auto.
Qed.

Lemma show_summary_writes w r v :
  In (Write Tab3 v) (trace (show_summary write_raises w r))
  <-> summarize w = true /\ subscript r summary_path = inr v
      /\ write_raises Tab3 v = None.
Proof.
  unfold show_summary, write_summary, st_write.
  destruct (subscript r summary_path) as [e|v'];
    destruct (summarize w); cbn.
  - split; [intros [H|[H|H]]; try discriminate H; destruct H|].
    intros (_ & H & _). discriminate H.
  - split; [intros [H|H]; [discriminate H|destruct H]|].
    intros (H & _). discriminate H.
  - destruct (write_raises Tab3 v') as [e|] eqn:Hw; cbn.
    + split; [intros [H|[H|H]]; try discriminate H; destruct H|].
      intros (_ & H & Hn). inversion H; subst. congruence.
    + split.
      * intros [H|[H|H]]; [discriminate H| |destruct H].
        inversion H; subst. auto.
      * intros (_ & H & _). inversion H; subst. right. now left.
  - split; [intros [H|H]; [discriminate H|destruct H]|].
    intros (H & _). discriminate H.
Qed.

Lemma show_response_writes r v :
  In (Write Tab1 v) (trace (show_response write_raises r))
  <-> v = r /\ write_raises Tab1 r = None.
Proof.
  unfold show_response, st_write.
  destruct (write_raises Tab1 r) as [e|] eqn:Hw; cbn.
  - split; [intros [H|H]; [discriminate H|destruct H]|].
    intros [_ H]. discriminate H.
  - split.
    + intros [H|H]; [|destruct H]. inversion H; subst. auto.
    + intros [-> _]. now left.
Qed.

(** X7: the Summary tab holds the [summaries[0].summary] field of the first
    alternative and nothing else; it is written exactly when Summarization is
    ticked, the run reaches the tabs, the field is present and the write
    goes through. *)
Theorem summary_tab_shows_summary w src opts v :
  In (Write Tab3 v) (trace (run'' w src opts))
  <-> exists response,
        transcribe_file {| buffer := buffer src |} opts = inr response
        /\ outcome (show_language write_raises py_repr response) = inr tt
        /\ summarize w = true
        /\ subscript response
             [Key "results"; Key "channels"; Idx0; Key "alternatives"; Idx0;
              Key "summaries"; Idx0; Key "summary"] = inr v
        /\ write_raises Tab3 v = None.
Proof.
  rewrite run_tab_write by discriminate.
  change [Key "results"; Key "channels"; Idx0; Key "alternatives"; Idx0;
          Key "summaries"; Idx0; Key "summary"] with summary_path.
  split.
  - intros (response & Hr & Hl & [H|[H|H]]); exists response;
      (split; [exact Hr|]); (split; [exact Hl|]).
    + now apply show_summary_writes.
    + exfalso. revert H.
      apply quiet_not_in, (page_event_quiet Tab1), show_response_events.
      discriminate.
    + exfalso. revert H.
      apply quiet_not_in, (page_event_quiet Tab2), show_transcript_events.
      discriminate.
  - intros (response & Hr & Hl & H). exists response.
    split; [exact Hr|]. split; [exact Hl|]. left. now apply show_summary_writes.
Qed.

(** X8: the Response tab holds the whole decoded response and nothing else;
    it is written whenever the run reaches the tabs and the write goes
    through, whatever happens in the Summary and Transcript blocks. *)
Theorem response_tab_shows_response w src opts v :
  In (Write Tab1 v) (trace (run'' w src opts))
  <-> transcribe_file {| buffer := buffer src |} opts = inr v
      /\ outcome (show_language write_raises py_repr v) = inr tt
      /\ write_raises Tab1 v = None.
Proof.
  rewrite run_tab_write by discriminate. split.
  - intros (response & Hr & Hl & [H|[H|H]]).
    + exfalso. revert H.
      apply quiet_not_in, (page_event_quiet Tab3), show_summary_events.
      discriminate.
    + apply show_response_writes in H as [-> Hw]. auto.
    + exfalso. revert H.
      apply quiet_not_in, (page_event_quiet Tab2), show_transcript_events.
      discriminate.
  - intros (Hr & Hl & Hw). exists v. split; [exact Hr|]. split; [exact Hl|].
    right. left. now apply show_response_writes.
Qed.

(** X9: there is no fall-back in the Transcript tab: with Paragraphs or
    Smart Format ticked, a response whose first alternative lacks the
    [paragraphs.transcript] field gets an error box with the exception, and
    its plain [transcript] is not written. *)
Theorem no_fallback_to_plain_transcript w response e :
  paragraphs w || smart_format w = true ->
  subscript response
    [Key "results"; Key "channels"; Idx0; Key "alternatives"; Idx0;
     Key "paragraphs"; Key "transcript"] = inl e ->
  show_transcript write_raises w response = ([Error (exn_str e) None], inr tt)
  /\ forall v, ~ In (Write Tab2 v) (trace (show_transcript write_raises w response)).
Proof.
  intros Hflag He.
  assert (H : show_transcript write_raises w response
              = ([Error (exn_str e) None], inr tt)).
  { unfold show_transcript, write_transcript. rewrite Hflag.
    change paragraphs_path
      with [Key "results"; Key "channels"; Idx0; Key "alternatives"; Idx0;
            Key "paragraphs"; Key "transcript"].
    rewrite He. reflexivity. }
  rewrite H. split; [reflexivity|].
  intros v [Hv|Hv]; [discriminate Hv|destruct Hv].
Qed.

End TabContents.

Lemma summary_tab_shows_summary_witness :
  In (Write Tab3 (JStr "greeting"))
     (trace (prerecorded (answers (sample_response (JStr "fr"))) renders sample_repr
               sample_widgets sample_source (options sample_widgets))).
Proof.
  apply (summary_tab_shows_summary (answers (sample_response (JStr "fr"))) renders
           sample_repr sample_widgets sample_source (options sample_widgets)
           (JStr "greeting")).
  exists (sample_response (JStr "fr")). repeat split.
Defined.

Lemma response_tab_shows_response_witness :
  In (Write Tab1 (response_with [("transcript", JStr "plain")]))
     (trace (prerecorded (answers (response_with [("transcript", JStr "plain")]))
               renders sample_repr sample_widgets sample_source
               (options sample_widgets))).
Proof.
  apply (response_tab_shows_response
           (answers (response_with [("transcript", JStr "plain")])) renders
           sample_repr sample_widgets sample_source (options sample_widgets)
           (response_with [("transcript", JStr "plain")])).
  repeat split.
Defined.

Lemma no_fallback_to_plain_transcript_witness :
  show_transcript renders sample_widgets (response_with [("transcript", JStr "plain")])
  = ([Error "'paragraphs'" None], inr tt).
Proof.
  apply (no_fallback_to_plain_transcript renders sample_widgets
           (response_with [("transcript", JStr "plain")])
           (Exn KeyError "'paragraphs'")); reflexivity.
Defined.

(** ** The store across clicks *)

(** X10: the three module globals read by [prerecorded] are determined by
    its [options] argument: two runs of the script that build the same
    options object run the same body, so a page replayed from the store was
    rendered under the flags of the current run. *)
Theorem options_determine_run (w w' : widgets) :
  options w = options w' ->
  summarize w = summarize w'
  /\ paragraphs w = paragraphs w'
  /\ smart_format w = smart_format w'
  /\ forall transcribe_file write_raises py_repr src,
       prerecorded transcribe_file write_raises py_repr w src (options w)
       = prerecorded transcribe_file write_raises py_repr w' src (options w').
Proof.
  intros Ho.
  assert (Hs : summarize w = summarize w').
  { assert (H : dict_get "summarize" (options w) = dict_get "summarize" (options w'))
      by now rewrite Ho.
    now inversion H. }
  assert (Hp : paragraphs w = paragraphs w').
  { assert (H : dict_get "paragraphs" (options w) = dict_get "paragraphs" (options w'))
      by now rewrite Ho.
    now inversion H. }
  assert (Hf : smart_format w = smart_format w').
  { assert (H : dict_get "smart_format" (options w)
                = dict_get "smart_format" (options w')) by now rewrite Ho.
    now inversion H. }
  repeat (split; [assumption|]).
  intros tf wr rp src. rewrite <- Ho.
  unfold prerecorded, show_summary, show_transcript, write_transcript.
  now rewrite Hs, Hp, Hf.
Qed.

Lemma options_determine_run_witness :
  prerecorded (answers (sample_response (JStr "fr"))) renders sample_repr
    sample_widgets sample_source (options sample_widgets)
  = prerecorded (answers (sample_response (JStr "fr"))) renders sample_repr
      (with_language Hindi sample_widgets) sample_source
      (options (with_language Hindi sample_widgets)).
Proof.
  apply (options_determine_run sample_widgets (with_language Hindi sample_widgets)).
  reflexivity.
Defined.

Section Store.

Variable write_raises : container -> json -> option exn.
Variable py_repr : json -> string.
Variable format_exc : exn -> string.

Abbreviation click' tf := (on_click tf write_raises py_repr format_exc).

Lemma click_hit tf c w src opts t :
  cache_lookup (src, opts) c = Some t ->
  click' tf c w src opts = (c, (t, inr tt)).
Proof.
  intros E. rewrite click_unfold, (memo_hit _ _ _ _ _ _ _ _ E). reflexivity.
Qed.

Lemma click_cache_ok tf c w src opts :
  cache_ok c -> cache_ok (fst (click' tf c w src opts)).
Proof. intros Hc. rewrite click_unfold. cbn [fst]. now apply memo_cache_ok. Qed.

Lemma click_requests tf c w src opts :
  cache_ok c ->
  requests (trace (snd (click' tf c w src opts)))
  = match cache_lookup (src, opts) c with Some _ => 0 | None => 1 end.
Proof.
  intros Hc. rewrite click_trace, requests_app, (memo_requests _ _ _ _ _ _ _ Hc).
  destruct (outcome (snd (prerecorded_cached tf write_raises py_repr c w src opts)));
    [rewrite report_requests|]; cbn; lia.
Qed.


(** X12: a click whose run raised leaves no entry behind: the next click
    with the same arguments issues the request again. *)
Theorem failed_click_is_retried tf tf' c w w' src opts e :
  cache_lookup (src, opts) c = None ->
  outcome (prerecorded tf write_raises py_repr w src opts) = inl e ->
  fst (click' tf c w src opts) = c
  /\ requests
       (trace (snd (click' tf' (fst (click' tf c w src opts)) w' src opts))) = 1.
Proof.
  intros Hmiss He.
  assert (Hc : fst (click' tf c w src opts) = c).
  { rewrite click_unfold, (memo_miss _ _ _ _ _ _ _ Hmiss). cbn [fst].
    now rewrite He. }
  split; [exact Hc|]. rewrite Hc.
  rewrite click_trace, requests_app, (memo_miss _ _ _ _ _ _ _ Hmiss). cbn [snd].
  rewrite run_requests.
  destruct (outcome (prerecorded tf' write_raises py_repr w' src opts));
    [rewrite report_requests|]; reflexivity.
Qed.

Lemma session_cons c x clicks :
  session write_raises py_repr format_exc c (x :: clicks)
  = (fst (session write_raises py_repr format_exc
            (fst (click' (service x) c (click_widgets x) (click_source x)
                    (click_options x))) clicks),
     trace (snd (click' (service x) c (click_widgets x) (click_source x)
                   (click_options x)))
     ++ snd (session write_raises py_repr format_exc
               (fst (click' (service x) c (click_widgets x) (click_source x)
                       (click_options x))) clicks)).
Proof.
  cbn [session].
  destruct (on_click (service x) write_raises py_repr format_exc c
              (click_widgets x) (click_source x) (click_options x)) as [c1 m].
  cbn [fst snd].
  destruct (session write_raises py_repr format_exc c1 clicks); reflexivity.
Qed.

(** X13: over any sequence of clicks, whatever the widgets, the audio and
    the answers of the service, at most one request is issued per click, and
    the store keeps holding page elements only. *)
Theorem session_requests_bounded c clicks :
  cache_ok c ->
  requests (snd (session write_raises py_repr format_exc c clicks)) <= length clicks
  /\ cache_ok (fst (session write_raises py_repr format_exc c clicks)).
Proof.
  revert c. induction clicks as [|x clicks IH]; intros c Hc.
  - split; [reflexivity|exact Hc].
  - rewrite session_cons. cbn [fst snd length].
    pose proof (click_cache_ok (service x) c (click_widgets x) (click_source x)
                  (click_options x) Hc) as Hc1.
    destruct (IH _ Hc1) as [Hle Hok]. split; [|exact Hok].
    rewrite requests_app, (click_requests _ _ _ _ _ Hc).
    destruct (cache_lookup _ c); lia.
Qed.

Lemma session_replays c clicks src opts t :
  cache_ok c ->
  cache_lookup (src, opts) c = Some t ->
  same_arguments src opts clicks ->
  requests (snd (session write_raises py_repr format_exc c clicks)) = 0
  /\ fst (session write_raises py_repr format_exc c clicks) = c.
Proof.
  intros Hc Hk Hsame. induction Hsame as [|x clicks [Hs Ho] _ IH].
  - split; reflexivity.
  - rewrite session_cons, Hs, Ho, (click_hit _ _ _ _ _ _ Hk). cbn [fst snd trace].
    destruct IH as [IH1 IH2]. rewrite requests_app, IH1, IH2.
    rewrite (cache_lookup_ok _ _ _ Hc Hk). split; reflexivity.
Qed.

(** X14: clicking again and again with the same audio and options costs one
    request: when the first click finds nothing stored and its run returns,
    the whole sequence issues exactly one request, whatever the service
    would answer later. *)
Theorem repeated_clicks_request_once c x clicks :
  cache_ok c ->
  cache_lookup (click_source x, click_options x) c = None ->
  outcome (prerecorded (service x) write_raises py_repr (click_widgets x)
             (click_source x) (click_options x)) = inr tt ->
  same_arguments (click_source x) (click_options x) clicks ->
  requests (snd (session write_raises py_repr format_exc c (x :: clicks))) = 1.
Proof.
  intros Hc Hmiss Hret Hsame.
  rewrite session_cons. cbn [snd].
  rewrite requests_app, (click_requests _ _ _ _ _ Hc), Hmiss.
  pose proof (click_cache_ok (service x) c (click_widgets x) (click_source x)
                (click_options x) Hc) as Hc1.
  assert (Hk : cache_lookup (click_source x, click_options x)
                 (fst (click' (service x) c (click_widgets x) (click_source x)
                         (click_options x)))
               = Some (filter is_element
                         (trace (prerecorded (service x) write_raises py_repr
                                   (click_widgets x) (click_source x)
                                   (click_options x))))).
  { rewrite click_unfold, (memo_miss _ _ _ _ _ _ _ Hmiss). cbn [fst].
    rewrite Hret. apply cache_lookup_head. }
  destruct (session_replays _ _ _ _ _ Hc1 Hk Hsame) as [-> _]. reflexivity.
Qed.

End Store.


Lemma failed_click_is_retried_witness :
  requests
    (trace
       (snd (on_click (answers (sample_response (JStr "fr"))) renders sample_repr
               sample_format_exc
               (fst (on_click (refuses read_timeout) renders sample_repr
                       sample_format_exc [] sample_widgets sample_source
                       (options sample_widgets)))
               sample_widgets sample_source (options sample_widgets)))) = 1.
Proof.
  apply (failed_click_is_retried renders sample_repr sample_format_exc
           (refuses read_timeout) (answers (sample_response (JStr "fr")))
           [] sample_widgets sample_widgets sample_source (options sample_widgets)
           read_timeout); reflexivity.
Defined.

Lemma session_requests_bounded_witness :
  requests
    (snd (session renders sample_repr sample_format_exc []
            [failing_click read_timeout; sample_click (sample_response (JStr "fr"));
             sample_click (sample_response (JStr "hi"))])) <= 3.
Proof.
  apply (session_requests_bounded renders sample_repr sample_format_exc []
           [failing_click read_timeout; sample_click (sample_response (JStr "fr"));
            sample_click (sample_response (JStr "hi"))]).
  constructor.
Defined.

Lemma repeated_clicks_request_once_witness :
  requests
    (snd (session renders sample_repr sample_format_exc []
            [sample_click (sample_response (JStr "fr"));
             sample_click (sample_response (JStr "hi"));
             failing_click read_timeout])) = 1.
Proof.
  apply (repeated_clicks_request_once renders sample_repr sample_format_exc []
           (sample_click (sample_response (JStr "fr")))
           [sample_click (sample_response (JStr "hi")); failing_click read_timeout]).
  - constructor.
  - reflexivity.
  - reflexivity.
  - repeat constructor.
Defined.

(** ** The key, the button and the audio *)

(** X19: when the secrets file can be read, the key is resolved in this
    order: a non-empty text input (for which [st.secrets] is not read at
    all), else the [DEEPGRAM_API_KEY] entry of the secrets, else the
    environment variable of that name; with none of the three the run shows
    the "Please enter" error and stops without calling the client
    constructor.  A resolved key is what the constructor is called with. *)
Theorem api_key_resolution_with_secrets
    (new_client : string -> result DeepgramClient)
    (text : string) (entries environ : gmap string string) :
  (text <> "" ->
   forall secrets, deepgram_api_key text secrets environ = ([], inr (Some text)))
  /\ (forall k, text = "" -> entries !! "DEEPGRAM_API_KEY" = Some k ->
      deepgram_api_key text (inr entries) environ = ([], inr (Some k)))
  /\ (forall k, text = "" -> entries !! "DEEPGRAM_API_KEY" = None ->
      environ !! "DEEPGRAM_API_KEY" = Some k ->
      deepgram_api_key text (inr entries) environ = ([], inr (Some k)))
  /\ (text = "" -> entries !! "DEEPGRAM_API_KEY" = None ->
      environ !! "DEEPGRAM_API_KEY" = None ->
      deepgram new_client text (inr entries) environ
      = ([Error "Please enter your Deepgram API key to continue" None], inr None))
  /\ (forall secrets t k,
      deepgram_api_key text secrets environ = (t, inr (Some k)) ->
      deepgram new_client text secrets environ
      = (t, rbind (new_client k) (fun client => inr (Some client)))).
Proof.
  split; [|split; [|split; [|split]]].
  - intros Ht secrets. unfold deepgram_api_key.
    apply String.eqb_neq in Ht. now rewrite Ht.
  - intros k -> Hs. unfold deepgram_api_key, KEY_NAME. cbn. now rewrite Hs.
  - intros k -> Hs He. unfold deepgram_api_key, KEY_NAME. cbn. now rewrite Hs, He.
  - intros -> Hs He. unfold deepgram, deepgram_api_key, KEY_NAME. cbn.
    now rewrite Hs, He.
  - intros secrets t k Hk. unfold deepgram. now rewrite Hk.
Qed.

Lemma api_key_resolution_with_secrets_witness :
  deepgram_api_key "" (inr ∅) {["DEEPGRAM_API_KEY" := "env"]}
  = ([], inr (Some "env"))
  /\ deepgram (fun key => inr {| api_key := key |}) "" (inr ∅) ∅
     = ([Error "Please enter your Deepgram API key to continue" None], inr None).
Proof.
  split.
  - apply (proj1 (proj2 (proj2 (api_key_resolution_with_secrets
                                  (fun key => inr {| api_key := key |}) "" ∅
                                  {["DEEPGRAM_API_KEY" := "env"]}))) "env");
      reflexivity.
  - apply (proj1 (proj2 (proj2 (proj2 (api_key_resolution_with_secrets
                                         (fun key => inr {| api_key := key |}) ""
                                         ∅ ∅))))); reflexivity.
Defined.

(** X15: a typed key always enables the Transcribe button and clears its
    help text.  The stores are consulted by presence, not by content: with
    an empty text box, an empty [DEEPGRAM_API_KEY] secret is taken as the
    key, whatever the environment holds, and the button is then disabled
    with the help text shown. *)
Theorem button_follows_resolved_key
    (text : string) (secrets : secrets_store) (environ : gmap string string) :
  (text <> "" ->
   exists k, deepgram_api_key text secrets environ = ([], inr (Some k))
             /\ transcribe_button k = {| disabled := false; help := "" |})
  /\ (forall entries,
      text = "" -> secrets = inr entries ->
      entries !! "DEEPGRAM_API_KEY" = Some "" ->
      deepgram_api_key text secrets environ = ([], inr (Some ""))
      /\ transcribe_button ""
         = {| disabled := true; help := "Enter your Deepgram API key" |})
  /\ (forall t k, deepgram_api_key text secrets environ = (t, inr (Some k)) ->
      disabled (transcribe_button k) = true -> text = "" /\ k = "").
Proof.
  unfold deepgram_api_key, KEY_NAME. split; [|split].
  - intros Ht. exists text. apply String.eqb_neq in Ht as Hb. rewrite Hb.
    split; [reflexivity|]. destruct text; [contradiction|reflexivity].
  - intros entries -> -> Hs. cbn. rewrite Hs. split; reflexivity.
  - intros t k Hk Hd.
    assert (k = "") as -> by (destruct k; [reflexivity|discriminate Hd]).
    split; [|reflexivity].
    destruct (String.eqb_spec text "") as [Ht|Ht]; [exact Ht|].
    inversion Hk; subst. contradiction.
Qed.

Lemma button_follows_resolved_key_witness :
  deepgram_api_key "" (inr {["DEEPGRAM_API_KEY" := ""]})
    {["DEEPGRAM_API_KEY" := "env"]}
  = ([], inr (Some ""))
  /\ transcribe_button ""
     = {| disabled := true; help := "Enter your Deepgram API key" |}.
Proof.
  apply (proj1 (proj2 (button_follows_resolved_key ""
                         (inr {["DEEPGRAM_API_KEY" := ""]})
                         {["DEEPGRAM_API_KEY" := "env"]}))
           {["DEEPGRAM_API_KEY" := ""]}); reflexivity.
Defined.



(** X17: the player comes before the source.  With Upload or Record chosen,
    the buffer of the source is the session value itself (the uploaded file
    object, the recorded bytes, or [None]), no file is read, and only
    [st.audio] on an uploaded file can end the run.  With the sample chosen,
    [st.audio] is given the path first: when it raises, the run ends there
    and the file is never read; otherwise the buffer is the bytes read from
    [assets/sample_file.wav], or the run ends with the exception of the
    read. *)
Theorem source_follows_choice
    (audio_raises : audio_value -> option exn)
    (read_file : string -> result string)
    (choice : audio_source) (uploaded : option UploadedFile) (recorded : option string) :
  (choice = UploadFile \/ choice = RecordAudio ->
   (forall src,
      snd (audio_stage audio_raises read_file choice
             (session_audio choice uploaded recorded)) = inr src ->
      buffer src = session_audio choice uploaded recorded)
   /\ (forall read_file',
       audio_stage audio_raises read_file' choice
         (session_audio choice uploaded recorded)
       = audio_stage audio_raises read_file choice
           (session_audio choice uploaded recorded))
   /\ (forall e,
       snd (audio_stage audio_raises read_file choice
              (session_audio choice uploaded recorded)) = inl e ->
       exists f, choice = UploadFile /\ uploaded = Some f
                 /\ audio_raises (AFile f) = Some e))
  /\ (choice = PickSample ->
      (forall e read_file',
         audio_raises (APath "assets/sample_file.wav") = Some e ->
         audio_stage audio_raises read_file' choice
           (session_audio choice uploaded recorded) = (None, inl e))
      /\ (forall data,
          audio_raises (APath "assets/sample_file.wav") = None ->
          read_file "assets/sample_file.wav" = inr data ->
          audio_stage audio_raises read_file choice
            (session_audio choice uploaded recorded)
          = (Some (APath "assets/sample_file.wav"),
             inr {| buffer := Some (ABytes data) |}))
      /\ (forall e,
          audio_raises (APath "assets/sample_file.wav") = None ->
          read_file "assets/sample_file.wav" = inl e ->
          audio_stage audio_raises read_file choice
            (session_audio choice uploaded recorded)
          = (Some (APath "assets/sample_file.wav"), inl e))).
Proof.
  split.
  - intros [-> | ->].
    + (* upload *)
      unfold audio_stage, shows_player, build_source, session_audio.
      destruct uploaded as [f|]; cbn.
      * destruct (audio_raises (AFile f)) as [e0|] eqn:Ha; cbn.
        -- split; [intros src H; discriminate H|].
           split; [reflexivity|].
           intros e H. inversion H; subst. exists f. auto.
        -- split; [intros src H; inversion H; reflexivity|].
           split; [reflexivity|]. intros e H. discriminate H.
      * split; [intros src H; inversion H; reflexivity|].
        split; [reflexivity|]. intros e H. discriminate H.
    + (* record *)
      unfold audio_stage, shows_player, build_source, session_audio.
      destruct recorded as [b|]; cbn; rewrite ?andb_false_r; cbn;
        (split; [intros src H; inversion H; reflexivity|]);
        (split; [reflexivity|]); intros e H; discriminate H.
  - intros ->.
    unfold audio_stage, shows_player, build_source, session_audio, SAMPLE_FILE.
    cbn. split; [|split].
    + intros e rf' Ha. rewrite Ha. reflexivity.
    + intros data Ha Hr. rewrite Ha, Hr. reflexivity.
    + intros e Ha Hr. rewrite Ha, Hr. reflexivity.
Qed.

Lemma source_follows_choice_witness :
  buffer {| buffer := Some (AFile sample_upload) |}
  = session_audio UploadFile (Some sample_upload) None
  /\ audio_stage (fun _ => Some media_error) (fun _ => inr "RIFF") PickSample
       (session_audio PickSample None None)
     = (None, inl media_error).
Proof.
  split.
  - apply (proj1 (proj1 (source_follows_choice plays (fun _ => inr "RIFF")
                           UploadFile (Some sample_upload) None)
                    (or_introl eq_refl))).
    reflexivity.
  - apply (proj1 (proj2 (source_follows_choice (fun _ => Some media_error)
                           (fun _ => inr "RIFF") PickSample None None)
                    eq_refl)).
    reflexivity.
Defined.

(** X18: nothing checks that there is audio: with Upload or Record chosen
    and nothing provided, the source holds [None], and a click that finds
    nothing stored still sends the request, with [None] as the buffer. *)
Theorem empty_audio_is_still_sent
    transcribe_file write_raises py_repr format_exc read_file
    (choice : audio_source) (c : cache) (w : widgets) (src : source) :
  choice = UploadFile \/ choice = RecordAudio ->
  build_source read_file choice (session_audio choice None None) = inr src ->
  cache_lookup (src, options w) c = None ->
  buffer src = None
  /\ In (Request {| buffer := None |} (options w))
        (trace (snd (on_click transcribe_file write_raises py_repr format_exc
                       c w src (options w)))).
Proof.
  intros Hchoice Hsrc Hmiss.
  assert (Hb : buffer src = None).
  { destruct Hchoice as [-> | ->]; cbn in Hsrc; inversion Hsrc; reflexivity. }
  split; [exact Hb|].
  rewrite click_trace, (memo_miss _ _ _ _ _ _ _ Hmiss). cbn [snd].
  apply in_or_app. left. rewrite run_trace, Hb. now left.
Qed.

Lemma empty_audio_is_still_sent_witness :
  In (Request {| buffer := None |} (options sample_widgets))
     (trace (snd (on_click (refuses unauthorized) renders sample_repr
                    sample_format_exc [] sample_widgets {| buffer := None |}
                    (options sample_widgets)))).
Proof.
  apply (empty_audio_is_still_sent (refuses unauthorized) renders sample_repr
           sample_format_exc (fun _ => inr "RIFF") RecordAudio [] sample_widgets
           {| buffer := None |}); [right| |]; reflexivity.
Defined.
